(** * Session tracking of the activity-stream tab tracker

    A shallow embedding of [addon/TabTracker.js]: the tracker's session
    data ([_tabData]), its table of open tabs ([_openTabs]), the handlers
    of the tab events and of the user, undesired and performance events,
    followed by the properties of the session state machine.

    Conventions of the embedding.
    - A JavaScript property that is [undefined] or absent is [None]; JS
      truthiness is written out ([truthy_str], [truthy_num], [truthy]).
    - Tab ids, URLs, reasons and session ids are strings; the readings of
      the clock and the durations, JS numbers, are integers.
    - A handler is a computation in the monad [M]: it threads the tracker's
      state and may end in a [TypeError]; the state reached at the moment of
      the throw is kept, as in JavaScript.
    - What the tracker reads from its host (the active tab, the store, the
      clock [absPerf.now], the generator [uuid], the add-on's version and
      locale) is the record [Env]. The modules [common/AbsPerf],
      [common/event-constants] and the SDK are not part of the tracker:
      the clock, the default page and the generator of ids are fields of
      [Env].
    - The registration of listeners, the telemetry preference and the
      observer of the performance log are left out: no property below
      depends on them. *)

From Stdlib Require Import ZArith Lia Ascii String.
From stdpp Require Import base option strings list gmap.

Local Open Scope string_scope.
Local Open Scope Z_scope.
Local Open Scope list_scope.

(** ** JavaScript values and objects *)

(** Primitive values, as they occur in event payloads. *)
Inductive JsVal : Type :=
  | JUndef
  | JNull
  | JBool (b : bool)
  | JNum (z : Z)
  | JStr (s : string).

#[global] Instance JsVal_eq_dec : EqDecision JsVal.
Proof. solve_decision. Defined.

(** An open JS object: the payload a caller hands to the tracker. *)
Abbreviation Obj := (gmap string JsVal).

(** [o.k]: an absent property reads as [undefined]. *)
Definition prop (o : Obj) (k : string) : JsVal := default JUndef (o !! k).

(** [k in o] *)
Definition has_prop (k : string) (o : Obj) : bool := bool_decide (is_Some (o !! k)).

Definition truthy (v : JsVal) : bool :=
  match v with
  | JUndef | JNull => false
  | JBool b => b
  | JNum z => negb (Z.eqb z 0)
  | JStr s => negb (String.eqb s "")
  end.

(** Truthiness of a property holding a string, or nothing. *)
Definition truthy_str (o : option string) : bool :=
  match o with
  | Some s => negb (String.eqb s "")
  | None => false
  end.

(** Truthiness of a property holding a number, or nothing. *)
Definition truthy_num (o : option Z) : bool :=
  match o with
  | Some z => negb (Z.eqb z 0)
  | None => false
  end.

(** [a || b] where [a] is a string property and [b] a string. *)
Definition or_str (a : option string) (b : string) : string :=
  match a with
  | Some s => if String.eqb s "" then b else s
  | None => b
  end.

Definition js_of_str (o : option string) : JsVal :=
  match o with Some s => JStr s | None => JUndef end.

(** [JSON.stringify] leaves out the properties whose value is [undefined]. *)
Definition JSON_stringify (o : Obj) : Obj := filter (λ kv, kv.2 ≠ JUndef) o.

(** ** Strings *)

Definition lower_ascii (c : ascii) : ascii :=
  let n := nat_of_ascii c in
  if (Nat.leb 65 n && Nat.leb n 90)%bool then ascii_of_nat (n + 32) else c.

(** [s.toLowerCase()], on ASCII letters. *)
Fixpoint toLowerCase (s : string) : string :=
  match s with
  | EmptyString => EmptyString
  | String c s' => String (lower_ascii c) (toLowerCase s')
  end.

(** [s.split(sep)] for a separator that is not empty: [skip] counts the
    characters of a separator just matched that are still to be passed
    over, [cur] is the piece being read, last character first. *)
Fixpoint split_from (sep s : string) (skip : nat) (cur : string) : list string :=
  match s with
  | EmptyString => [String.rev cur]
  | String c s' =>
      match skip with
      | S k => split_from sep s' k cur
      | O =>
          if String.prefix sep s
          then String.rev cur :: split_from sep s' (Nat.pred (String.length sep)) EmptyString
          else split_from sep s' O (String c cur)
      end
  end.

Definition split (s sep : string) : list string := split_from sep s O EmptyString.

(** [arr.indexOf(x)]: the first index holding [x], or [-1]. *)
Fixpoint indexOf (arr : list string) (x : string) : Z :=
  match arr with
  | [] => -1
  | y :: arr' =>
      if String.eqb y x then 0
      else let i := indexOf arr' x in if Z.eqb i (-1) then -1 else i + 1
  end.

(** ** Data model *)

(** A tab as a handler sees it: [tab.id] and the URL it shows now. *)
Record Tab : Type := mkTab {
  id : string;
  tab_url : string
}.

(** A row of [_openTabs]: [{tab, url, active}]. The row's [tab] is the tab
    object itself, kept to remove its listeners; the key of the row is its
    id. [ot_url] is the URL stored for the tab, which lags behind
    [tab.url]. *)
Record OpenTab : Type := mkOpenTab {
  ot_tab : string;
  ot_url : string;
  ot_active : bool
}.

(** [_tabData], the one live session state, and also the shape of a
    session-complete record, which is a snapshot of it. *)
Record TabData : Type := mkTabData {
  action : option string;
  client_id : option string;
  addon_version : option string;
  locale : option string;
  page : option string;
  session_id : option string;
  experiment_id : option string;
  url : option string;
  tab_id : option string;
  load_reason : option string;
  unload_reason : option string;
  start_time : option Z;
  session_duration : option Z;
  highlights_size : option Z;
  total_history_size : option Z;
  total_bookmarks : option Z
}.

(** [{}] *)
Definition emptyTabData : TabData :=
  mkTabData None None None None None None None None None None None None None None None None.

(** The state of the store, as far as the tracker reads it. *)
Record StoreState : Type := mkStoreState {
  Highlights_error : bool;
  Highlights_init : bool;
  Highlights_rows : nat;          (* Highlights.rows.length *)
  PlacesStats_historySize : option Z;
  PlacesStats_bookmarksSize : option Z
}.

(** What a handler reads from the host and from the tracker's
    configuration. [absPerfNow n] is the reading of the [n]-th call of
    [absPerf.now()], [uuid n] the string of the [n]-th call of [uuid()]. *)
Record Env : Type := mkEnv {
  activeTab : option Tab;           (* tabs.activeTab *)
  store : option StoreState;        (* this._store, and its getState() *)
  trackableURLs : list string;      (* this._trackableURLs *)
  clientID : string;                (* this._clientID *)
  experimentID : option string;     (* this._experimentID *)
  self_version : string;            (* self.version *)
  getLocale : string;               (* Locale.getLocale() *)
  defaultPage : string;             (* eventConstants.defaultPage *)
  absPerfNow : nat → Z;
  uuid : nat → string
}.

(** The data of a notification: the JSON text, read back as an object.
    For a completed session it is the snapshot of [_tabData] (a property
    that is [None] is left out by [JSON.stringify]), for an event it is the
    payload. *)
Inductive Json : Type :=
  | JsonSession (r : TabData)
  | JsonPayload (o : Obj).

Record Notification : Type := mkNotification {
  topic : string;
  data : Json
}.

Definition COMPLETE_NOTIF := "tab-session-complete".
Definition ACTION_NOTIF := "user-action-event".
Definition PERFORMANCE_NOTIF := "performance-event".
Definition UNDESIRED_NOTIF := "undesired-event".

(** The tracker and the part of the world it writes to. [tabData] is
    [this._tabData] (under the name of its getter), [openTabs] is
    [this._openTabs], keyed by [tab.id]. [notified] lists the calls of
    [Services.obs.notifyObservers], oldest first. [nowCalls] and
    [uuidCalls] count the calls of [absPerf.now()] and of [uuid()]. *)
Record State : Type := mkState {
  tabData : TabData;
  openTabs : gmap string OpenTab;
  notified : list Notification;
  nowCalls : nat;
  uuidCalls : nat
}.

Definition initState : State := mkState emptyTabData ∅ [] 0 0.

(** ** The monad of handlers *)

Inductive Exn : Type := TypeError.

Inductive Outcome (A : Type) : Type :=
  | Return (a : A)
  | Throw (x : Exn).
Arguments Return {A} a.
Arguments Throw {A} x.

Definition M (A : Type) : Type := State → Outcome A * State.

#[global] Instance M_ret : MRet M := λ A a s, (Return a, s).

#[global] Instance M_bind : MBind M := λ A B f m s,
  match m s with
  | (Return a, s') => f a s'
  | (Throw x, s') => (Throw x, s')
  end.

Definition throw {A : Type} (x : Exn) : M A := λ s, (Throw x, s).

Definition getState : M State := λ s, (Return s, s).

Definition getTabData : M TabData := λ s, (Return (tabData s), s).

Definition setTabData (td : TabData) : M unit := λ s,
  (Return tt, mkState td (openTabs s) (notified s) (nowCalls s) (uuidCalls s)).

Definition setOpenTabs (ots : gmap string OpenTab) : M unit := λ s,
  (Return tt, mkState (tabData s) ots (notified s) (nowCalls s) (uuidCalls s)).

Definition modifyTabData (f : TabData → TabData) : M unit :=
  td ← getTabData; setTabData (f td).

(** [Services.obs.notifyObservers(null, topic, data)] *)
Definition notifyObservers (t : string) (d : Json) : M unit := λ s,
  (Return tt,
   mkState (tabData s) (openTabs s) (notified s ++ [mkNotification t d])
           (nowCalls s) (uuidCalls s)).

(** [absPerf.now()] *)
Definition now (e : Env) : M Z := λ s,
  (Return (absPerfNow e (nowCalls s)),
   mkState (tabData s) (openTabs s) (notified s) (S (nowCalls s)) (uuidCalls s)).

(** [String(uuid())] *)
Definition new_uuid (e : Env) : M string := λ s,
  (Return (uuid e (uuidCalls s)),
   mkState (tabData s) (openTabs s) (notified s) (nowCalls s) (S (uuidCalls s))).

(** Reading a property of [tabs.activeTab], which throws when there is no
    active tab. *)
Definition activeTab_of (e : Env) : M Tab :=
  match activeTab e with
  | Some t => mret t
  | None => throw TypeError
  end.

(** Reading a property of [this._openTabs[i]], which throws when the
    table has no such row. *)
Definition openTab_of (i : string) : M OpenTab :=
  s ← getState;
  match openTabs s !! i with
  | Some ot => mret ot
  | None => throw TypeError
  end.

(** ** Assignments to the properties of [_tabData]

    [set_p v td] is [td.p = v]; with [None] it is [delete td.p]. *)

Definition set_action (v : option string) (td : TabData) : TabData :=
  mkTabData v (client_id td) (addon_version td) (locale td) (page td)
    (session_id td) (experiment_id td) (url td) (tab_id td) (load_reason td)
    (unload_reason td) (start_time td) (session_duration td) (highlights_size td)
    (total_history_size td) (total_bookmarks td).

Definition set_client_id (v : option string) (td : TabData) : TabData :=
  mkTabData (action td) v (addon_version td) (locale td) (page td) (session_id td)
    (experiment_id td) (url td) (tab_id td) (load_reason td) (unload_reason td)
    (start_time td) (session_duration td) (highlights_size td)
    (total_history_size td) (total_bookmarks td).

Definition set_addon_version (v : option string) (td : TabData) : TabData :=
  mkTabData (action td) (client_id td) v (locale td) (page td) (session_id td)
    (experiment_id td) (url td) (tab_id td) (load_reason td) (unload_reason td)
    (start_time td) (session_duration td) (highlights_size td)
    (total_history_size td) (total_bookmarks td).

Definition set_locale (v : option string) (td : TabData) : TabData :=
  mkTabData (action td) (client_id td) (addon_version td) v (page td)
    (session_id td) (experiment_id td) (url td) (tab_id td) (load_reason td)
    (unload_reason td) (start_time td) (session_duration td) (highlights_size td)
    (total_history_size td) (total_bookmarks td).

Definition set_page (v : option string) (td : TabData) : TabData :=
  mkTabData (action td) (client_id td) (addon_version td) (locale td) v
    (session_id td) (experiment_id td) (url td) (tab_id td) (load_reason td)
    (unload_reason td) (start_time td) (session_duration td) (highlights_size td)
    (total_history_size td) (total_bookmarks td).

Definition set_session_id (v : option string) (td : TabData) : TabData :=
  mkTabData (action td) (client_id td) (addon_version td) (locale td) (page td) v
    (experiment_id td) (url td) (tab_id td) (load_reason td) (unload_reason td)
    (start_time td) (session_duration td) (highlights_size td)
    (total_history_size td) (total_bookmarks td).

Definition set_experiment_id (v : option string) (td : TabData) : TabData :=
  mkTabData (action td) (client_id td) (addon_version td) (locale td) (page td)
    (session_id td) v (url td) (tab_id td) (load_reason td) (unload_reason td)
    (start_time td) (session_duration td) (highlights_size td)
    (total_history_size td) (total_bookmarks td).

Definition set_url (v : option string) (td : TabData) : TabData :=
  mkTabData (action td) (client_id td) (addon_version td) (locale td) (page td)
    (session_id td) (experiment_id td) v (tab_id td) (load_reason td)
    (unload_reason td) (start_time td) (session_duration td) (highlights_size td)
    (total_history_size td) (total_bookmarks td).

Definition set_tab_id (v : option string) (td : TabData) : TabData :=
  mkTabData (action td) (client_id td) (addon_version td) (locale td) (page td)
    (session_id td) (experiment_id td) (url td) v (load_reason td)
    (unload_reason td) (start_time td) (session_duration td) (highlights_size td)
    (total_history_size td) (total_bookmarks td).

Definition set_load_reason (v : option string) (td : TabData) : TabData :=
  mkTabData (action td) (client_id td) (addon_version td) (locale td) (page td)
    (session_id td) (experiment_id td) (url td) (tab_id td) v (unload_reason td)
    (start_time td) (session_duration td) (highlights_size td)
    (total_history_size td) (total_bookmarks td).

Definition set_unload_reason (v : option string) (td : TabData) : TabData :=
  mkTabData (action td) (client_id td) (addon_version td) (locale td) (page td)
    (session_id td) (experiment_id td) (url td) (tab_id td) (load_reason td) v
    (start_time td) (session_duration td) (highlights_size td)
    (total_history_size td) (total_bookmarks td).

Definition set_start_time (v : option Z) (td : TabData) : TabData :=
  mkTabData (action td) (client_id td) (addon_version td) (locale td) (page td)
    (session_id td) (experiment_id td) (url td) (tab_id td) (load_reason td)
    (unload_reason td) v (session_duration td) (highlights_size td)
    (total_history_size td) (total_bookmarks td).

Definition set_session_duration (v : option Z) (td : TabData) : TabData :=
  mkTabData (action td) (client_id td) (addon_version td) (locale td) (page td)
    (session_id td) (experiment_id td) (url td) (tab_id td) (load_reason td)
    (unload_reason td) (start_time td) v (highlights_size td)
    (total_history_size td) (total_bookmarks td).

Definition set_highlights_size (v : option Z) (td : TabData) : TabData :=
  mkTabData (action td) (client_id td) (addon_version td) (locale td) (page td)
    (session_id td) (experiment_id td) (url td) (tab_id td) (load_reason td)
    (unload_reason td) (start_time td) (session_duration td) v
    (total_history_size td) (total_bookmarks td).

Definition set_total_history_size (v : option Z) (td : TabData) : TabData :=
  mkTabData (action td) (client_id td) (addon_version td) (locale td) (page td)
    (session_id td) (experiment_id td) (url td) (tab_id td) (load_reason td)
    (unload_reason td) (start_time td) (session_duration td) (highlights_size td) v
    (total_bookmarks td).

Definition set_total_bookmarks (v : option Z) (td : TabData) : TabData :=
  mkTabData (action td) (client_id td) (addon_version td) (locale td) (page td)
    (session_id td) (experiment_id td) (url td) (tab_id td) (load_reason td)
    (unload_reason td) (start_time td) (session_duration td) (highlights_size td)
    (total_history_size td) v.

(** ** The tracker *)

(** [this._trackableURLs.indexOf(URL) !== -1] *)
Definition isActivityStreamsURL (e : Env) (URL : string) : bool :=
  negb (Z.eqb (indexOf (trackableURLs e) URL) (-1)).

(** [{total_history_size, total_bookmarks}], the two taken from [td] *)
Definition cleared (td : TabData) : TabData :=
  set_total_bookmarks (total_bookmarks td)
    (set_total_history_size (total_history_size td) emptyTabData).

(** Keeps the history and bookmarks sizes of the current [_tabData]. *)
Definition _clearTabData : M unit :=
  td ← getTabData;
  setTabData (cleared td).

(** [url.split("#/")[1] || eventConstants.defaultPage] *)
Definition page_of (e : Env) (u : string) : string :=
  or_str (split u "#/" !! 1%nat) (defaultPage e).

(** [_setCommonProperties(payload, url)] on the payload of an event;
    [td] is [this._tabData] at the call. *)
Definition _setCommonProperties (e : Env) (td : TabData) (u : string) (payload : Obj) : Obj :=
  let payload := <["client_id" := JStr (clientID e)]> payload in
  let payload := <["addon_version" := JStr (self_version e)]> payload in
  let payload := <["locale" := JStr (getLocale e)]> payload in
  let payload := <["page" := JStr (page_of e u)]> payload in
  let payload := <["session_id" := js_of_str (session_id td)]> payload in
  if truthy_str (experimentID e)
  then <["experiment_id" := js_of_str (experimentID e)]> payload
  else payload.

(** [_setCommonProperties(this._tabData, url)]: the same assignments, the
    payload being the session data itself. *)
Definition _setCommonProperties_tabData (e : Env) (u : string) : M unit :=
  modifyTabData (λ td,
    let td := set_client_id (Some (clientID e)) td in
    let td := set_addon_version (Some (self_version e)) td in
    let td := set_locale (Some (getLocale e)) td in
    let td := set_page (Some (page_of e u)) td in
    let td := set_session_id (session_id td) td in
    if truthy_str (experimentID e)
    then set_experiment_id (experimentID e) td
    else td).

Definition handleUserEvent (e : Env) (payload : Obj) : M unit :=
  let payload := <["action" := JStr "activity_stream_event"]> payload in
  a ← activeTab_of e;
  let payload := <["tab_id" := JStr (id a)]> payload in
  a ← activeTab_of e;
  td ← getTabData;
  let payload := _setCommonProperties e td (tab_url a) payload in
  notifyObservers ACTION_NOTIF (JsonPayload (JSON_stringify payload));;
  if bool_decide (prop payload "event" = JStr "SEARCH")
     || bool_decide (prop payload "event" = JStr "CLICK")
  then
    match prop payload "event" with
    | JStr ev => modifyTabData (set_unload_reason (Some (toLowerCase ev)))
    | _ => mret tt
    end
  else mret tt.

Definition handleUndesiredEvent (e : Env) (payload : Obj) : M unit :=
  let payload := <["action" := JStr "activity_stream_masga_event"]> payload in
  a ← activeTab_of e;
  let payload := <["tab_id" := JStr (id a)]> payload in
  a ← activeTab_of e;
  td ← getTabData;
  let payload := _setCommonProperties e td (tab_url a) payload in
  let payload :=
    if negb (has_prop "value" payload) then <["value" := JNum 0]> payload else payload in
  notifyObservers UNDESIRED_NOTIF (JsonPayload (JSON_stringify payload)).

Definition handlePerformanceEvent (e : Env) (eventData : Obj) (eventName value : JsVal)
  : M unit :=
  match activeTab e with
  | None => mret tt   (* short circuit out if there is no active tab *)
  | Some a =>
      let payload : Obj := eventData in
      let payload := <["action" := JStr "activity_stream_performance"]> payload in
      let payload := <["tab_id" := JStr (id a)]> payload in
      let payload := <["event" := eventName]> payload in
      let payload := <["value" := value]> payload in
      td ← getTabData;
      let payload := _setCommonProperties e td (tab_url a) payload in
      notifyObservers PERFORMANCE_NOTIF (JsonPayload (JSON_stringify payload))
  end.

(** A session id that was set on tab open is not overwritten. *)
Definition _initTabSession (e : Env) (tab : Tab) (loadReason : string) : M unit :=
  td ← getTabData;
  (if truthy_str (session_id td)
   then mret tt
   else u ← new_uuid e; modifyTabData (set_session_id (Some u)));;
  modifyTabData (set_url (Some (tab_url tab)));;
  modifyTabData (set_tab_id (Some (id tab)));;
  modifyTabData (set_load_reason (Some loadReason)).

(** The number of highlights, or [-1] when the store is missing or its
    highlights are in error or not initialised. *)
Definition highlights_count (e : Env) : Z :=
  match store e with
  | Some currentState =>
      if Highlights_error currentState || negb (Highlights_init currentState)
      then -1
      else Z.of_nat (Highlights_rows currentState)
  | None => -1
  end.

(** The flush of the live session. The URL is the one stored in
    [_openTabs], not [tab.url]. The deletion of [_tabData.active], a
    property that nothing assigns, has no effect and no counterpart here. *)
Definition navigateAwayFromPage (e : Env) (tab : Tab) (reason : string) : M unit :=
  ot ← openTab_of (id tab);
  _setCommonProperties_tabData e (ot_url ot);;
  modifyTabData (set_action (Some "activity_stream_session"));;
  modifyTabData (λ td, set_unload_reason (Some (or_str (unload_reason td) reason)) td);;
  modifyTabData (set_highlights_size (Some (highlights_count e)));;
  td ← getTabData;
  if negb (truthy_str (tab_id td)) then
    _initTabSession e tab (or_str (load_reason td) "none");;
    modifyTabData (set_session_duration (Some 0));;
    modifyTabData (set_start_time None);;
    td ← getTabData;
    notifyObservers COMPLETE_NOTIF (JsonSession td);;
    _clearTabData
  else
    match start_time td with
    | Some t0 =>
        if truthy_num (Some t0) then
          n ← now e;
          modifyTabData (set_session_duration (Some (n - t0)));;
          modifyTabData (set_start_time None)
        else mret tt
    | None => mret tt
    end;;
    td ← getTabData;
    notifyObservers COMPLETE_NOTIF (JsonSession td);;
    _clearTabData.

Definition logActivate (e : Env) (tab : Tab) : M unit :=
  if isActivityStreamsURL e (tab_url tab) then
    td ← getTabData;
    _initTabSession e tab (or_str (load_reason td) "focus");;
    n ← now e;
    modifyTabData (set_start_time (Some n));;
    ot ← openTab_of (id tab);
    s ← getState;
    setOpenTabs
      (<[id tab := mkOpenTab (ot_tab ot) (tab_url tab) (ot_active ot)]> (openTabs s));;
    ot ← openTab_of (id tab);
    s ← getState;
    setOpenTabs (<[id tab := mkOpenTab (ot_tab ot) (ot_url ot) true]> (openTabs s))
  else mret tt.

(** The second half of [logReady]: a URL other than a tracked one was
    loaded into the tab of the live session, whose stored URL is tracked. *)
Definition logReady_replaced (e : Env) (tab : Tab) : M unit :=
  s ← getState;
  if bool_decide (tab_id (tabData s) = Some (id tab)) then
    match openTabs s !! id tab with
    | Some ot =>
        if isActivityStreamsURL e (ot_url ot)
        then navigateAwayFromPage e tab "navigation"
        else mret tt
    | None => mret tt
    end
  else mret tt.

Definition logReady (e : Env) (tab : Tab) : M unit :=
  if isActivityStreamsURL e (tab_url tab) then
    a ← activeTab_of e;
    if bool_decide (id a = id tab) then
      td ← getTabData;
      (if negb (truthy_str (url td)) then
         modifyTabData (set_load_reason (Some "newtab"))
       else if negb (truthy_num (session_duration td)) then
         navigateAwayFromPage e tab "refresh";;
         modifyTabData (set_load_reason (Some "refresh"))
       else mret tt);;
      logActivate e tab
    else logReady_replaced e tab
  else logReady_replaced e tab.

Definition logPageShow (e : Env) (tab : Tab) : M unit :=
  td ← getTabData;
  if isActivityStreamsURL e (tab_url tab) && negb (truthy_str (load_reason td))
  then logReady e tab
  else mret tt.

Definition logDeactivate (e : Env) (tab : Tab) : M unit :=
  match activeTab e with
  | None => mret tt
  | Some _ =>
      if isActivityStreamsURL e (tab_url tab) then
        navigateAwayFromPage e tab "unfocus";;
        ot ← openTab_of (id tab);
        s ← getState;
        setOpenTabs (<[id tab := mkOpenTab (ot_tab ot) (ot_url ot) false]> (openTabs s))
      else mret tt
  end.

Definition logClose (e : Env) (tab : Tab) : M unit :=
  if isActivityStreamsURL e (tab_url tab) then
    ot ← openTab_of (id tab);
    if negb (ot_active ot) then mret tt
    else
      navigateAwayFromPage e tab "close";;
      s ← getState;
      setOpenTabs (delete (id tab) (openTabs s))
  else
    s ← getState;
    setOpenTabs (delete (id tab) (openTabs s)).

(** [onOpen]; the subscription of the tab's five listeners is the host's
    part (see [dispatch] below). *)
Definition onOpen (e : Env) (tab : Tab) : M unit :=
  s ← getState;
  setOpenTabs (<[id tab := mkOpenTab (id tab) (tab_url tab) true]> (openTabs s));;
  modifyTabData (set_tab_id (Some (id tab)));;
  match store e with
  | Some currentState =>
      modifyTabData (set_total_history_size (PlacesStats_historySize currentState));;
      modifyTabData (set_total_bookmarks (PlacesStats_bookmarksSize currentState))
  | None => mret tt
  end;;
  u ← new_uuid e;
  modifyTabData (set_session_id (Some u)).

(** [handleRouteChange(tab, route)], with [route.isFirstLoad] *)
Definition handleRouteChange (e : Env) (tab : Tab) (isFirstLoad : bool) : M unit :=
  if negb isFirstLoad then
    navigateAwayFromPage e tab "route_change";;
    logReady e tab
  else mret tt.

(** ** The host's events *)

Inductive Event : Type :=
  | Open (tab : Tab)
  | Ready (tab : Tab)
  | PageShow (tab : Tab)
  | Activate (tab : Tab)
  | Deactivate (tab : Tab)
  | Close (tab : Tab)
  | UserEvent (payload : Obj)
  | UndesiredEvent (payload : Obj)
  | PerformanceEvent (eventData : Obj) (eventName value : JsVal)
  | RouteChange (tab : Tab) (isFirstLoad : bool).

(** The handler the host calls for an event. *)
Definition dispatch (e : Env) (ev : Event) : M unit :=
  match ev with
  | Open tab => onOpen e tab
  | Ready tab => logReady e tab
  | PageShow tab => logPageShow e tab
  | Activate tab => logActivate e tab
  | Deactivate tab => logDeactivate e tab
  | Close tab => logClose e tab
  | UserEvent payload => handleUserEvent e payload
  | UndesiredEvent payload => handleUndesiredEvent e payload
  | PerformanceEvent eventData eventName value =>
      handlePerformanceEvent e eventData eventName value
  | RouteChange tab isFirstLoad => handleRouteChange e tab isFirstLoad
  end.

(** The host at one event: the tracker's environment with the tab that is
    active at that moment. *)
Definition with_activeTab (a : option Tab) (e : Env) : Env :=
  mkEnv a (store e) (trackableURLs e) (clientID e) (experimentID e) (self_version e)
        (getLocale e) (defaultPage e) (absPerfNow e) (uuid e).

(** A run of the tracker: the events are delivered one after the other,
    each with the tab active at its moment; an exception thrown by a
    handler ends that handler and nothing else. *)
Fixpoint run (e : Env) (evs : list (option Tab * Event)) (s : State) : State :=
  match evs with
  | [] => s
  | (a, ev) :: evs' => run e evs' (dispatch (with_activeTab a e) ev s).2
  end.

(** The session-complete records among the notifications. *)
Definition session_records (ns : list Notification) : list TabData :=
  omap (λ n, match data n with
             | JsonSession r => if String.eqb (topic n) COMPLETE_NOTIF then Some r else None
             | JsonPayload _ => None
             end) ns.


(** The notification of a completed session. *)
Definition session_note (r : TabData) : Notification :=
  mkNotification COMPLETE_NOTIF (JsonSession r).

(** ** Invariants of the session state *)

(** [keeps I m]: the computation [m] leaves a state satisfying [I] in a
    state satisfying [I], whether it returns or throws. *)
Definition keeps {A : Type} (I : State → Prop) (m : M A) : Prop :=
  ∀ s, I s → I (m s).2.

(** A property of the session state alone. *)
Definition on_tabData (P : TabData → Prop) (s : State) : Prop := P (tabData s).

(** The clock never goes back. *)
Definition monotone (clock : nat → Z) : Prop :=
  ∀ i j : nat, (i ≤ j)%nat → clock i ≤ clock j.

(** Between two handlers no duration is left on the session state, and a
    start time is a reading of the clock [clock] already taken. *)
Definition stamped (clock : nat → Z) (s : State) : Prop :=
  session_duration (tabData s) = None
  ∧ ∀ t, start_time (tabData s) = Some t → ∃ i, (i < nowCalls s)%nat ∧ t = clock i.

(** What [_initTabSession] leaves on the session state. *)
Definition initialised (e : Env) (tab : Tab) (loadReason : string) (s : State) : TabData :=
  set_load_reason (Some loadReason)
    (set_tab_id (Some (id tab))
       (set_url (Some (tab_url tab))
          (if truthy_str (session_id (tabData s)) then tabData s
           else set_session_id (Some (uuid e (uuidCalls s))) (tabData s)))).

(** ** A small world for the examples *)

Module Demo.

Definition newtab : string := "about:newtab".

(** Two tracked URLs, a store with three highlights, a clock that starts
    at 1000 and advances by 10 at each reading. *)
Definition env : Env :=
  mkEnv None (Some (mkStoreState false true 3 (Some 100) (Some 7)))
        [newtab; "about:newtab#/timeline"] "client-0" None "1.0.0" "en-US" "NEW_TAB"
        (λ n, 1000 + 10 * Z.of_nat n)
        (λ n, String (ascii_of_nat (97 + n)) "-uuid").

Definition tabA : Tab := mkTab "tab-1" newtab.
Definition tabB : Tab := mkTab "tab-2" newtab.
Definition web : Tab := mkTab "tab-3" "https://example.org/".

Definition click : Obj := {[ "event" := JStr "CLICK" ]}.
Definition search : Obj := {[ "event" := JStr "SEARCH" ]}.

(** The environment at a moment when [t] is the active tab. *)
Definition env_on (t : Tab) : Env := with_activeTab (Some t) env.

(** Tab A was opened and its tracked page is loaded: a session is live. *)
Definition loaded : State :=
  run env [(Some tabA, Open tabA); (Some tabA, Ready tabA)] initState.

(** ... and the user clicked on the page. *)
Definition clicked : State :=
  run env [(Some tabA, Open tabA); (Some tabA, Ready tabA); (Some tabA, UserEvent click)]
    initState.

(** ... or the user went to another tab. *)
Definition unfocused : State :=
  run env [(Some tabA, Open tabA); (Some tabA, Ready tabA); (Some web, Deactivate tabA)]
    initState.

(** Tabs A and B were opened while another page had the focus, and B was
    closed: no session is live, and A's page has not loaded. *)
Definition unloaded : State :=
  run env [(Some web, Open tabA); (Some web, Open tabB); (Some web, Close tabB)] initState.

End Demo.

(** ** The rest of the tracker *)

(** [generateEvent(eventData)]: a copy of the event data with a newly
    generated [event_id], which replaces one the caller gave. *)
Definition generateEvent (e : Env) (eventData : Obj) : M Obj :=
  u ← new_uuid e;
  mret (<["event_id" := JStr u]> eventData).

(** Whether the separator ["#/"] of a route occurs in [s]. *)
Fixpoint has_route_sep (s : string) : bool :=
  match s with
  | EmptyString => false
  | String _ s' => String.prefix "#/" s || has_route_sep s'
  end.

(** ** What the tracker writes *)

(** The unload reasons that a user event sets, the reasons that the
    handlers give to the flush, and the load reasons. *)
Definition user_reasons : list string := ["search"; "click"].
Definition flush_reasons : list string :=
  ["refresh"; "navigation"; "unfocus"; "close"; "route_change"].
Definition load_reasons : list string := ["newtab"; "refresh"; "focus"; "none"].

(** The shape of the session state between two statements of a handler. *)
Definition session_ok (td : TabData) : Prop :=
  (is_Some (start_time td) →
   is_Some (tab_id td) ∧ is_Some (url td) ∧ is_Some (load_reason td)
   ∧ is_Some (session_id td))
  ∧ (is_Some (url td) → is_Some (tab_id td) ∧ is_Some (load_reason td))
  ∧ (∀ u, unload_reason td = Some u → u ∈ user_reasons)
  ∧ (∀ l, load_reason td = Some l → l ∈ load_reasons).

(** The shape of a record of a completed session. *)
Definition record_ok (r : TabData) : Prop :=
  action r = Some "activity_stream_session"
  ∧ is_Some (tab_id r)
  ∧ is_Some (session_id r)
  ∧ is_Some (client_id r)
  ∧ is_Some (page r)
  ∧ is_Some (highlights_size r)
  ∧ (∃ u, unload_reason r = Some u ∧ u ∈ user_reasons ++ flush_reasons)
  ∧ (∀ l, load_reason r = Some l → l ∈ load_reasons)
  ∧ (is_Some (url r) → is_Some (load_reason r)).

(** The session ids in use: those of the records are the draws [idxs] of
    the generator [gen], each made once, and the id of the live session is
    a later draw. A tab id on the session state comes with a session id. *)
Definition ids_ok (gen : nat → string) (s : State) : Prop :=
  (is_Some (tab_id (tabData s)) → is_Some (session_id (tabData s)))
  ∧ ∃ idxs : list nat,
      session_id <$> session_records (notified s) = (λ i, Some (gen i)) <$> idxs
      ∧ NoDup idxs
      ∧ Forall (λ i, (i < uuidCalls s)%nat) idxs
      ∧ ∀ u, session_id (tabData s) = Some u →
             ∃ j, u = gen j ∧ (j < uuidCalls s)%nat ∧ j ∉ idxs.

(** What holds of the tracker after every handler. *)
Definition tracker_ok (gen : nat → string) (s : State) : Prop :=
  session_ok (tabData s)
  ∧ Forall record_ok (session_records (notified s))
  ∧ ids_ok gen s.

(** [emits n m]: the computation [m] adds at most [n] notifications to
    those already made, and alters none of them. *)
Definition emits {A : Type} (n : nat) (m : M A) : Prop :=
  ∀ s, ∃ l, notified (m s).2 = notified s ++ l ∧ (length l ≤ n)%nat.

(** * Properties *)

(** ** Running the monad *)

Ltac munfold :=
  unfold modifyTabData, setTabData, setOpenTabs, getTabData, getState, notifyObservers,
    now, new_uuid, throw, openTab_of, activeTab_of, mbind, M_bind, mret, M_ret in *.

Lemma bind_Return {A B : Type} (m : M A) (f : A → M B) (s s' : State) (a : A) :
  m s = (Return a, s') → (m ≫= f) s = f a s'.
Proof. intros H. unfold mbind, M_bind. by rewrite H. Qed.

Lemma bind_Throw {A B : Type} (m : M A) (f : A → M B) (s s' : State) (x : Exn) :
  m s = (Throw x, s') → (m ≫= f) s = (Throw x, s').
Proof. intros H. unfold mbind, M_bind. by rewrite H. Qed.

Lemma openTab_of_Some (i : string) (s : State) (ot : OpenTab) :
  openTabs s !! i = Some ot → openTab_of i s = (Return ot, s).
Proof. intros Hot. unfold openTab_of. munfold. simpl. by rewrite Hot. Qed.

Lemma openTab_of_None (i : string) (s : State) :
  openTabs s !! i = None → openTab_of i s = (Throw TypeError, s).
Proof. intros Hot. unfold openTab_of. munfold. simpl. by rewrite Hot. Qed.

Section Keeps.
Context (I : State → Prop).

Lemma keeps_ret {A : Type} (a : A) : keeps I (mret a : M A).
Proof. by intros s Hs. Qed.

Lemma keeps_throw {A : Type} (x : Exn) : keeps I (throw x : M A).
Proof. by intros s Hs. Qed.

Lemma keeps_bind {A B : Type} (m : M A) (f : A → M B) :
  keeps I m → (∀ a, keeps I (f a)) → keeps I (m ≫= f).
Proof.
  intros Hm Hf s Hs. specialize (Hm s Hs). unfold mbind, M_bind.
  destruct (m s) as [[a|x] s']; simpl in *; [by apply Hf | done].
Qed.

Lemma keeps_getState : keeps I getState.
Proof. by intros s Hs. Qed.

Lemma keeps_getTabData : keeps I getTabData.
Proof. by intros s Hs. Qed.

Lemma keeps_activeTab_of (e : Env) : keeps I (activeTab_of e).
Proof. intros s Hs. unfold activeTab_of. by destruct (activeTab e). Qed.

Lemma keeps_openTab_of (i : string) : keeps I (openTab_of i).
Proof.
  intros s Hs. unfold openTab_of. munfold. simpl. by destruct (openTabs s !! i).
Qed.
End Keeps.

(** ** The tracked URLs *)

Lemma indexOf_bounds (arr : list string) (x : string) : -1 ≤ indexOf arr x.
Proof.
  induction arr as [|y arr IH]; simpl; [lia|].
  destruct (String.eqb y x); [lia|].
  destruct (Z.eqb_spec (indexOf arr x) (-1)); lia.
Qed.

Lemma indexOf_elem_of (arr : list string) (x : string) :
  indexOf arr x ≠ -1 ↔ x ∈ arr.
Proof.
  induction arr as [|y arr IH]; simpl.
  - split; [done | by intros ?%elem_of_nil].
  - rewrite elem_of_cons. pose proof (indexOf_bounds arr x) as Hb.
    destruct (String.eqb_spec y x) as [->|Hne].
    + split; [by left | done].
    + destruct (Z.eqb_spec (indexOf arr x) (-1)) as [Heq|Hneq].
      * split; [done|]. intros [->|Hin]; [done|]. by apply IH in Hin.
      * split; [intros _; right; by apply IH | lia].
Qed.

Lemma isActivityStreamsURL_elem_of (e : Env) (URL : string) :
  isActivityStreamsURL e URL = true ↔ URL ∈ trackableURLs e.
Proof.
  unfold isActivityStreamsURL. rewrite <- indexOf_elem_of.
  destruct (Z.eqb_spec (indexOf (trackableURLs e) URL) (-1)) as [->|Hne]; simpl;
    split; done.
Qed.

(** ** The flush *)

(** On a tab that has no row in [_openTabs] the flush throws at its first
    statement and changes nothing. *)
Lemma navigateAwayFromPage_unregistered (e : Env) (tab : Tab) (reason : string) (s : State) :
  openTabs s !! id tab = None →
  navigateAwayFromPage e tab reason s = (Throw TypeError, s).
Proof.
  intros Hot. unfold navigateAwayFromPage. munfold. simpl. by rewrite Hot.
Qed.

(** On a tab that has a row the flush returns: it notifies one completed
    session [r] and leaves the cleared session state. The two branches of
    the flush are told apart by the truthiness of [tab_id]. *)
Lemma navigateAwayFromPage_spec (e : Env) (tab : Tab) (reason : string) (s : State)
    (ot : OpenTab) :
  openTabs s !! id tab = Some ot →
  ∃ (r : TabData) (nc uc : nat),
    navigateAwayFromPage e tab reason s
    = (Return tt,
       mkState (cleared (tabData s)) (openTabs s) (notified s ++ [session_note r]) nc uc)
    ∧ (nowCalls s ≤ nc ∧ uuidCalls s ≤ uc)%nat
    ∧ action r = Some "activity_stream_session"
    ∧ unload_reason r = Some (or_str (unload_reason (tabData s)) reason)
    ∧ (truthy_str (tab_id (tabData s)) = false →
       session_duration r = Some 0 ∧ start_time r = None
       ∧ load_reason r = Some (or_str (load_reason (tabData s)) "none")
       ∧ tab_id r = Some (id tab) ∧ url r = Some (tab_url tab)
       ∧ nc = nowCalls s)
    ∧ (truthy_str (tab_id (tabData s)) = true →
       tab_id r = tab_id (tabData s) ∧ url r = url (tabData s)
       ∧ load_reason r = load_reason (tabData s)
       ∧ session_id r = session_id (tabData s)
       ∧ uc = uuidCalls s
       ∧ if truthy_num (start_time (tabData s))
         then session_duration r
              = Some (absPerfNow e (nowCalls s) - default 0 (start_time (tabData s)))
              ∧ start_time r = None ∧ nc = S (nowCalls s)
         else session_duration r = session_duration (tabData s)
              ∧ start_time r = start_time (tabData s) ∧ nc = nowCalls s).
Proof.
  intros Hot. destruct s as [td ots ns nc uc]. simpl in *.
  unfold navigateAwayFromPage, _setCommonProperties_tabData, _initTabSession, _clearTabData.
  munfold. simpl. rewrite Hot. simpl.
  destruct td as [ac ci av lo pg si ei ur ti lr un st sd hs th tb]. simpl.
  destruct (truthy_str (experimentID e)); simpl;
    destruct (truthy_str ti) eqn:Hti; simpl.
  all: try (destruct st as [t0|]; simpl; [destruct (Z.eqb t0 0) eqn:Ht0; simpl|]).
  all: try (destruct (truthy_str si) eqn:Hsi; simpl).
  all: do 3 eexists; (split; [reflexivity|]); simpl; repeat split; try done; lia.
Qed.

(** The flush keeps what the tracker knows of the clock. *)
Lemma navigateAwayFromPage_stamped (e : Env) (tab : Tab) (reason : string) :
  keeps (stamped (absPerfNow e)) (navigateAwayFromPage e tab reason).
Proof.
  intros s Hs. destruct (openTabs s !! id tab) as [ot|] eqn:Hot.
  - destruct (navigateAwayFromPage_spec e tab reason s ot Hot) as (r & nc & uc & -> & _).
    split; simpl; [done | by intros t [=]].
  - by rewrite navigateAwayFromPage_unregistered.
Qed.

(** ** Activation *)

Lemma _initTabSession_spec (e : Env) (tab : Tab) (loadReason : string) (s : State) :
  _initTabSession e tab loadReason s
  = (Return tt,
     mkState (initialised e tab loadReason s) (openTabs s) (notified s) (nowCalls s)
       (if truthy_str (session_id (tabData s)) then uuidCalls s else S (uuidCalls s))).
Proof.
  unfold _initTabSession, initialised. munfold. simpl.
  destruct s as [td ots ns nc uc]; simpl.
  by destruct (truthy_str (session_id td)).
Qed.

(** Activation of a tab that shows a tracked URL and has a row. *)
Lemma logActivate_tracked (e : Env) (tab : Tab) (s : State) (ot : OpenTab) :
  isActivityStreamsURL e (tab_url tab) = true →
  openTabs s !! id tab = Some ot →
  logActivate e tab s
  = (Return tt,
     mkState
       (set_start_time (Some (absPerfNow e (nowCalls s)))
          (initialised e tab (or_str (load_reason (tabData s)) "focus") s))
       (<[id tab := mkOpenTab (ot_tab ot) (tab_url tab) true]> (openTabs s))
       (notified s) (S (nowCalls s))
       (if truthy_str (session_id (tabData s)) then uuidCalls s else S (uuidCalls s))).
Proof.
  intros Has Hot. unfold logActivate. rewrite Has.
  unfold mbind at 1, M_bind at 1, getTabData at 1.
  rewrite (bind_Return _ _ _ _ _ (_initTabSession_spec e tab _ s)).
  munfold. simpl. rewrite Hot. simpl. rewrite lookup_insert_eq. simpl.
  by rewrite insert_insert_eq.
Qed.

Lemma logActivate_untracked (e : Env) (tab : Tab) (s : State) :
  isActivityStreamsURL e (tab_url tab) = false →
  logActivate e tab s = (Return tt, s).
Proof. intros Has. unfold logActivate. by rewrite Has. Qed.

Lemma logActivate_stamped (e : Env) (tab : Tab) :
  keeps (stamped (absPerfNow e)) (logActivate e tab).
Proof.
  intros s [Hsd Hst]. unfold logActivate.
  destruct (isActivityStreamsURL e (tab_url tab)); [|done].
  unfold mbind at 1, M_bind at 1, getTabData at 1.
  rewrite (bind_Return _ _ _ _ _ (_initTabSession_spec e tab _ s)).
  munfold. unfold initialised. simpl.
  destruct (openTabs s !! id tab) as [ot|]; simpl;
    rewrite ?lookup_insert_eq; simpl;
    (split; simpl;
     [by destruct (truthy_str (session_id (tabData s)))
     | intros t [= <-]; exists (nowCalls s); split; [lia | done]]).
Qed.

(** ** The invariant [stamped] *)

Section Stamped.
Context (clock : nat → Z).

Lemma modifyTabData_stamped (f : TabData → TabData) :
  (∀ td, session_duration (f td) = session_duration td) →
  (∀ td, start_time (f td) = start_time td) →
  keeps (stamped clock) (modifyTabData f).
Proof.
  intros Hsd Hst s [H1 H2]. munfold. split; simpl.
  - by rewrite Hsd.
  - rewrite Hst. exact H2.
Qed.

Lemma setOpenTabs_stamped (ots : gmap string OpenTab) :
  keeps (stamped clock) (setOpenTabs ots).
Proof. by intros s Hs. Qed.

Lemma notifyObservers_stamped (t : string) (d : Json) :
  keeps (stamped clock) (notifyObservers t d).
Proof. by intros s Hs. Qed.

Lemma new_uuid_stamped (e : Env) : keeps (stamped clock) (new_uuid e).
Proof. by intros s Hs. Qed.

Lemma initState_stamped : stamped clock initState.
Proof. split; [done | by intros t [=]]. Qed.
End Stamped.

Section OnTabData.
Context (P : TabData → Prop).

Lemma modifyTabData_on_tabData (f : TabData → TabData) :
  (∀ td, P td → P (f td)) → keeps (on_tabData P) (modifyTabData f).
Proof. intros Hf s Hs. munfold. by apply Hf. Qed.

Lemma setOpenTabs_on_tabData (ots : gmap string OpenTab) :
  keeps (on_tabData P) (setOpenTabs ots).
Proof. by intros s Hs. Qed.

Lemma notifyObservers_on_tabData (t : string) (d : Json) :
  keeps (on_tabData P) (notifyObservers t d).
Proof. by intros s Hs. Qed.

Lemma new_uuid_on_tabData (e : Env) : keeps (on_tabData P) (new_uuid e).
Proof. by intros s Hs. Qed.

Lemma now_on_tabData (e : Env) : keeps (on_tabData P) (now e).
Proof. by intros s Hs. Qed.
End OnTabData.

Create HintDb keeps discriminated.

#[local] Hint Resolve keeps_ret keeps_throw keeps_getState keeps_getTabData
  keeps_activeTab_of keeps_openTab_of setOpenTabs_stamped notifyObservers_stamped
  new_uuid_stamped navigateAwayFromPage_stamped logActivate_stamped
  setOpenTabs_on_tabData notifyObservers_on_tabData new_uuid_on_tabData
  now_on_tabData : keeps.

(** Splits a goal [keeps I m] along the binds and the tests of [m]. *)
Ltac keeps_split :=
  repeat match goal with
    | |- keeps _ (_ ≫= _) => apply keeps_bind; [|intros ?]
    | |- keeps _ (if ?b then _ else _) => destruct b
    | |- keeps _ (match ?x with _ => _ end) => destruct x
    end.

Ltac keeps_auto :=
  keeps_split;
  try (apply modifyTabData_stamped; intros [] ; reflexivity);
  auto with keeps.

Lemma onOpen_stamped (e : Env) (tab : Tab) : keeps (stamped (absPerfNow e)) (onOpen e tab).
Proof. unfold onOpen. keeps_auto. Qed.

Lemma logReady_replaced_stamped (e : Env) (tab : Tab) :
  keeps (stamped (absPerfNow e)) (logReady_replaced e tab).
Proof. unfold logReady_replaced. keeps_auto. Qed.

Lemma logReady_stamped (e : Env) (tab : Tab) :
  keeps (stamped (absPerfNow e)) (logReady e tab).
Proof.
  pose proof (logReady_replaced_stamped e tab). unfold logReady. keeps_auto.
Qed.

Lemma logPageShow_stamped (e : Env) (tab : Tab) :
  keeps (stamped (absPerfNow e)) (logPageShow e tab).
Proof.
  pose proof (logReady_stamped e tab). unfold logPageShow. keeps_auto.
Qed.

Lemma logDeactivate_stamped (e : Env) (tab : Tab) :
  keeps (stamped (absPerfNow e)) (logDeactivate e tab).
Proof. unfold logDeactivate. keeps_auto. Qed.

Lemma logClose_stamped (e : Env) (tab : Tab) :
  keeps (stamped (absPerfNow e)) (logClose e tab).
Proof. unfold logClose. keeps_auto. Qed.

Lemma handleUserEvent_stamped (e : Env) (payload : Obj) :
  keeps (stamped (absPerfNow e)) (handleUserEvent e payload).
Proof. unfold handleUserEvent. keeps_auto. Qed.

Lemma handleUndesiredEvent_stamped (e : Env) (payload : Obj) :
  keeps (stamped (absPerfNow e)) (handleUndesiredEvent e payload).
Proof. unfold handleUndesiredEvent. keeps_auto. Qed.

Lemma handlePerformanceEvent_stamped (e : Env) (eventData : Obj) (eventName value : JsVal) :
  keeps (stamped (absPerfNow e)) (handlePerformanceEvent e eventData eventName value).
Proof. unfold handlePerformanceEvent. keeps_auto. Qed.

Lemma handleRouteChange_stamped (e : Env) (tab : Tab) (isFirstLoad : bool) :
  keeps (stamped (absPerfNow e)) (handleRouteChange e tab isFirstLoad).
Proof.
  pose proof (logReady_stamped e tab). unfold handleRouteChange. keeps_auto.
Qed.

(** Every handler keeps the invariant, and so does every run of the
    tracker from its initial state. *)
Lemma dispatch_stamped (e : Env) (ev : Event) :
  keeps (stamped (absPerfNow e)) (dispatch e ev).
Proof.
  destruct ev; simpl;
    auto using onOpen_stamped, logReady_stamped, logPageShow_stamped, logActivate_stamped,
      logDeactivate_stamped, logClose_stamped, handleUserEvent_stamped,
      handleUndesiredEvent_stamped, handlePerformanceEvent_stamped,
      handleRouteChange_stamped.
Qed.

Lemma run_stamped (e : Env) (evs : list (option Tab * Event)) (s : State) :
  stamped (absPerfNow e) s → stamped (absPerfNow e) (run e evs s).
Proof.
  revert s. induction evs as [|[a ev] evs IH]; intros s Hs; simpl; [done|].
  apply IH. by apply (dispatch_stamped (with_activeTab a e) ev).
Qed.

(** ** Truthiness of the reasons *)

Lemma or_str_truthy (a : option string) (b : string) :
  b ≠ "" → truthy_str (Some (or_str a b)) = true.
Proof.
  intros Hb. unfold or_str, truthy_str.
  destruct a as [x|]; [destruct (String.eqb_spec x "") as [->|Hx]|];
    apply negb_true_iff, String.eqb_neq; done.
Qed.

Lemma or_str_falsy (a : option string) (b : string) :
  truthy_str a = false → or_str a b = b.
Proof.
  unfold or_str, truthy_str. destruct a as [x|]; [|done].
  by destruct (String.eqb x "").
Qed.

Lemma or_str_set (a : option string) (b : string) :
  truthy_str a = true → Some (or_str a b) = a.
Proof.
  unfold or_str, truthy_str. destruct a as [x|]; [|done].
  by destruct (String.eqb x "").
Qed.

(** ** Deactivation while the window closes *)

(** C6. When no tab is active anywhere (the whole window is closing),
    [logDeactivate] returns at once: nothing is notified, and the session
    state and the table of open tabs are what they were. The flush is left
    to [logClose]. *)
Theorem logDeactivate_window_closing (e : Env) (tab : Tab) (s : State) :
  activeTab e = None →
  logDeactivate e tab s = (Return tt, s).
Proof. intros Hnone. unfold logDeactivate. by rewrite Hnone. Qed.

Lemma logDeactivate_window_closing_witness :
  activeTab Demo.env = None
  ∧ logDeactivate Demo.env Demo.tabA Demo.loaded = (Return tt, Demo.loaded).
Proof.
  split; [reflexivity|].
  apply (logDeactivate_window_closing Demo.env Demo.tabA). reflexivity.
Defined.

(** ** Opening a tab *)

(** C9. Whatever the session state, [onOpen] returns and notifies nothing;
    it overwrites the session's [tab_id] with the id of the opened tab and
    its [session_id] with a newly generated UUID, records the tab's row as
    active, and leaves the rest of the in-flight session ([url],
    [load_reason], [unload_reason], [start_time], [session_duration]) as it
    was: the live session is re-attributed to the new tab without a flush. *)
Theorem onOpen_reattributes (e : Env) (tab : Tab) (s : State) :
  ∃ s' : State,
    onOpen e tab s = (Return tt, s')
    ∧ tab_id (tabData s') = Some (id tab)
    ∧ session_id (tabData s') = Some (uuid e (uuidCalls s))
    ∧ uuidCalls s' = S (uuidCalls s)
    ∧ notified s' = notified s
    ∧ url (tabData s') = url (tabData s)
    ∧ load_reason (tabData s') = load_reason (tabData s)
    ∧ unload_reason (tabData s') = unload_reason (tabData s)
    ∧ start_time (tabData s') = start_time (tabData s)
    ∧ session_duration (tabData s') = session_duration (tabData s)
    ∧ openTabs s' = <[id tab := mkOpenTab (id tab) (tab_url tab) true]> (openTabs s).
Proof.
  unfold onOpen. munfold. simpl.
  destruct (store e) as [currentState|]; simpl; eexists; (split; [reflexivity|]);
    simpl; repeat split; done.
Qed.

(** ** Page show *)

Lemma logPageShow_load_reason_set (e : Env) (tab : Tab) (s : State) :
  truthy_str (load_reason (tabData s)) = true →
  logPageShow e tab s = (Return tt, s).
Proof.
  intros Hlr. unfold logPageShow. munfold. simpl. rewrite Hlr.
  by rewrite andb_false_r.
Qed.

Lemma logPageShow_untracked (e : Env) (tab : Tab) (s : State) :
  isActivityStreamsURL e (tab_url tab) = false →
  logPageShow e tab s = (Return tt, s).
Proof. intros Has. unfold logPageShow. munfold. simpl. by rewrite Has. Qed.

(** C10. When the session's [load_reason] is already set, or the tab's URL
    is not tracked, [logPageShow] notifies nothing and leaves the session
    state and the table of open tabs unchanged. *)
Theorem logPageShow_frame (e : Env) (tab : Tab) (s : State) :
  truthy_str (load_reason (tabData s)) = true
  ∨ isActivityStreamsURL e (tab_url tab) = false →
  logPageShow e tab s = (Return tt, s).
Proof.
  intros [Hlr | Has].
  - by apply logPageShow_load_reason_set.
  - by apply logPageShow_untracked.
Qed.

Lemma logPageShow_frame_witness :
  (truthy_str (load_reason (tabData Demo.loaded)) = true
   ∨ isActivityStreamsURL (Demo.env_on Demo.tabA) (tab_url Demo.tabA) = false)
  ∧ logPageShow (Demo.env_on Demo.tabA) Demo.tabA Demo.loaded
    = (Return tt, Demo.loaded).
Proof.
  split; [left; reflexivity|].
  apply (logPageShow_frame (Demo.env_on Demo.tabA) Demo.tabA).
  left. reflexivity.
Defined.

(** After [logActivate] has returned for a tracked URL, a load reason is
    set. *)
Lemma logActivate_load_reason (e : Env) (tab : Tab) (s s' : State) :
  isActivityStreamsURL e (tab_url tab) = true →
  logActivate e tab s = (Return tt, s') →
  truthy_str (load_reason (tabData s')) = true.
Proof.
  intros Has Hrun. destruct (openTabs s !! id tab) as [ot|] eqn:Hot.
  - rewrite (logActivate_tracked e tab s ot Has Hot) in Hrun.
    injection Hrun as <-. simpl. by apply or_str_truthy.
  - unfold logActivate in Hrun. rewrite Has in Hrun.
    unfold mbind at 1, M_bind at 1, getTabData at 1 in Hrun.
    rewrite (bind_Return _ _ _ _ _ (_initTabSession_spec e tab _ s)) in Hrun.
    munfold. simpl in Hrun. by rewrite Hot in Hrun.
Qed.

(** The ready and pageshow events of one navigation start one session:
    once [logReady] has started the session of the active tracked tab,
    the [logPageShow] that follows does nothing. *)
Lemma logReady_then_logPageShow (e : Env) (tab a : Tab) (s s' : State) :
  isActivityStreamsURL e (tab_url tab) = true →
  activeTab e = Some a → id a = id tab →
  logReady e tab s = (Return tt, s') →
  logPageShow e tab s' = (Return tt, s').
Proof.
  intros Has Ha Hid Hrun. apply logPageShow_load_reason_set.
  unfold logReady in Hrun. rewrite Has in Hrun.
  unfold activeTab_of in Hrun. rewrite Ha in Hrun.
  unfold mbind at 1, M_bind at 1, mret at 1, M_ret at 1 in Hrun.
  rewrite bool_decide_eq_true_2 in Hrun by done.
  unfold mbind at 1, M_bind at 1, getTabData at 1 in Hrun.
  unfold mbind at 1, M_bind at 1 in Hrun.
  destruct (negb (truthy_str (url (tabData s)))).
  - munfold. simpl in Hrun. by eapply logActivate_load_reason.
  - destruct (negb (truthy_num (session_duration (tabData s)))).
    + destruct (openTabs s !! id tab) as [ot|] eqn:Hot.
      * destruct (navigateAwayFromPage_spec e tab "refresh" s ot Hot)
          as (r & nc & uc & Hflush & _).
        rewrite (bind_Return _ _ _ _ _ Hflush) in Hrun.
        munfold. simpl in Hrun. by eapply logActivate_load_reason.
      * rewrite (bind_Throw _ _ _ _ _ (navigateAwayFromPage_unregistered e tab _ s Hot))
          in Hrun. done.
    + munfold. simpl in Hrun. by eapply logActivate_load_reason.
Qed.

(** ** Flushing a page that never finished loading *)

(** C5. A flush in a state where no [tab_id] is recorded on the session
    notifies one completed session with [session_duration = 0] and with
    the load reason of the session or, when none was set, ["none"]; the
    session state is then reset, keeping only the two size counters. *)
Theorem flush_before_load (e : Env) (tab : Tab) (reason : string) (s : State)
    (ot : OpenTab) :
  openTabs s !! id tab = Some ot →
  truthy_str (tab_id (tabData s)) = false →
  ∃ (r : TabData) (s' : State),
    navigateAwayFromPage e tab reason s = (Return tt, s')
    ∧ notified s' = notified s ++ [session_note r]
    ∧ session_duration r = Some 0
    ∧ load_reason r = Some (or_str (load_reason (tabData s)) "none")
    ∧ (truthy_str (load_reason (tabData s)) = false → load_reason r = Some "none")
    ∧ tabData s' = cleared (tabData s)
    ∧ openTabs s' = openTabs s.
Proof.
  intros Hot Hti.
  destruct (navigateAwayFromPage_spec e tab reason s ot Hot)
    as (r & nc & uc & Hflush & _ & _ & _ & Hnew & _).
  destruct (Hnew Hti) as (Hsd & _ & Hlr & _).
  exists r. eexists. split; [exact Hflush|]. simpl. repeat split; try done.
  intros Hfalsy. by rewrite Hlr, or_str_falsy.
Qed.

Lemma flush_before_load_witness :
  openTabs Demo.unloaded !! id Demo.tabA = Some (mkOpenTab "tab-1" Demo.newtab true)
  ∧ truthy_str (tab_id (tabData Demo.unloaded)) = false
  ∧ ∃ (r : TabData) (s' : State),
      navigateAwayFromPage Demo.env Demo.tabA "close" Demo.unloaded = (Return tt, s')
      ∧ session_duration r = Some 0
      ∧ load_reason r = Some "none"
      ∧ session_records (notified s') = session_records (notified Demo.unloaded) ++ [r].
Proof.
  split; [reflexivity|]. split; [reflexivity|].
  destruct (flush_before_load Demo.env Demo.tabA "close" Demo.unloaded
              (mkOpenTab "tab-1" Demo.newtab true) eq_refl eq_refl)
    as (r & s' & Hrun & Hnote & Hsd & _ & Hlr & _).
  exists r, s'. split; [exact Hrun|]. split; [exact Hsd|]. split; [by apply Hlr|].
  rewrite Hnote. unfold session_records. by rewrite omap_app.
Defined.

(** ** User events and the unload reason *)

(** The common properties leave the payload's own properties alone. *)
Lemma _setCommonProperties_other (e : Env) (td : TabData) (u k : string) (payload : Obj) :
  k ∉ ["client_id"; "addon_version"; "locale"; "page"; "session_id"; "experiment_id"] →
  _setCommonProperties e td u payload !! k = payload !! k.
Proof.
  intros Hk. unfold _setCommonProperties.
  repeat (apply not_elem_of_cons in Hk as [? Hk]).
  destruct (truthy_str (experimentID e)); by rewrite !lookup_insert_ne.
Qed.

(** A SEARCH or CLICK user event, delivered while a tab is active, is
    notified and sets the session's unload reason to the event's name in
    lower case. *)
Lemma handleUserEvent_sets_unload_reason (e : Env) (payload : Obj) (ev : string)
    (a : Tab) (s : State) :
  activeTab e = Some a →
  payload !! "event" = Some (JStr ev) →
  ev = "SEARCH" ∨ ev = "CLICK" →
  ∃ n : Notification,
    handleUserEvent e payload s
    = (Return tt,
       mkState (set_unload_reason (Some (toLowerCase ev)) (tabData s)) (openTabs s)
         (notified s ++ [n]) (nowCalls s) (uuidCalls s))
    ∧ topic n = ACTION_NOTIF.
Proof.
  intros Ha Hev Hkind. unfold handleUserEvent, activeTab_of. rewrite Ha.
  munfold. simpl.
  assert (prop (_setCommonProperties e (tabData s) (tab_url a)
                  (<["tab_id":=JStr (id a)]>
                     (<["action":=JStr "activity_stream_event"]> payload))) "event"
          = JStr ev) as ->.
  { unfold prop. rewrite _setCommonProperties_other.
    - by rewrite !lookup_insert_ne, Hev.
    - rewrite !not_elem_of_cons. repeat split; try done. apply not_elem_of_nil. }
  eexists. split.
  - by destruct Hkind as [-> | ->].
  - reflexivity.
Qed.

(** The handlers that neither flush nor record a user event leave the
    unload reason where it is. *)
Lemma unload_reason_kept (e : Env) (ev : Event) (u : option string) :
  match ev with
  | Open _ | Activate _ | UndesiredEvent _ | PerformanceEvent _ _ _ => True
  | _ => False
  end →
  keeps (on_tabData (λ td, unload_reason td = u)) (dispatch e ev).
Proof.
  destruct ev; try done; intros _; simpl;
    unfold onOpen, logActivate, _initTabSession, handleUndesiredEvent,
      handlePerformanceEvent;
    keeps_split;
    try (apply modifyTabData_on_tabData; intros [] ?; assumption);
    auto with keeps.
Qed.

(** C2. After a SEARCH or CLICK user event recorded by [handleUserEvent],
    the session's unload reason is the event's name in lower case, and a
    flush that finds this unload reason on the session state notifies a
    record whose [unload_reason] is that name, whatever reason is handed
    to the flush. *)
Theorem user_event_overrides_reason (e : Env) (payload : Obj) (ev : string) (a : Tab)
    (s : State) :
  activeTab e = Some a →
  payload !! "event" = Some (JStr ev) →
  ev = "SEARCH" ∨ ev = "CLICK" →
  ∃ s1 : State,
    handleUserEvent e payload s = (Return tt, s1)
    ∧ unload_reason (tabData s1) = Some (toLowerCase ev)
    ∧ openTabs s1 = openTabs s
    ∧ ∀ (e' : Env) (tab : Tab) (reason : string) (s2 : State),
        unload_reason (tabData s2) = unload_reason (tabData s1) →
        is_Some (openTabs s2 !! id tab) →
        ∃ (r : TabData) (s3 : State),
          navigateAwayFromPage e' tab reason s2 = (Return tt, s3)
          ∧ notified s3 = notified s2 ++ [session_note r]
          ∧ unload_reason r = Some (toLowerCase ev).
Proof.
  intros Ha Hev Hkind.
  destruct (handleUserEvent_sets_unload_reason e payload ev a s Ha Hev Hkind)
    as (n & Hrun & _).
  set (s1 := mkState (set_unload_reason (Some (toLowerCase ev)) (tabData s)) (openTabs s)
               (notified s ++ [n]) (nowCalls s) (uuidCalls s)) in *.
  exists s1. split; [exact Hrun|]. do 2 (split; [done|]).
  intros e' tab reason s2 Hsame [ot Hot].
  destruct (navigateAwayFromPage_spec e' tab reason s2 ot Hot)
    as (r & nc & uc & Hflush & _ & _ & Hun & _).
  exists r. eexists. split; [exact Hflush|]. split; [done|].
  rewrite Hun, Hsame. simpl. by destruct Hkind as [-> | ->].
Qed.

Lemma user_event_overrides_reason_witness :
  activeTab (Demo.env_on Demo.tabA) = Some Demo.tabA
  ∧ Demo.click !! "event" = Some (JStr "CLICK")
  ∧ ("CLICK" = "SEARCH" ∨ "CLICK" = "CLICK")
  ∧ ∃ s1 : State,
      handleUserEvent (Demo.env_on Demo.tabA) Demo.click Demo.loaded = (Return tt, s1)
      ∧ unload_reason (tabData s1) = Some "click"
      ∧ ∃ (r : TabData) (s2 : State),
          navigateAwayFromPage Demo.env Demo.tabA "navigation" s1 = (Return tt, s2)
          ∧ notified s2 = notified s1 ++ [session_note r]
          ∧ unload_reason r = Some "click".
Proof.
  split; [reflexivity|]. split; [reflexivity|]. split; [by right|].
  destruct (user_event_overrides_reason (Demo.env_on Demo.tabA) Demo.click "CLICK"
              Demo.tabA Demo.loaded eq_refl eq_refl (or_intror eq_refl))
    as (s1 & Hrun & Hun & Hots & Hflush).
  exists s1. split; [exact Hrun|]. split; [exact Hun|].
  apply (Hflush Demo.env Demo.tabA "navigation" s1 eq_refl).
  rewrite Hots. by eexists.
Defined.

(** ** The first half of [logReady] *)

(** For the active tab showing a tracked URL, [logReady] is one of three
    sequences, chosen by [url] and [session_duration]. *)
Lemma logReady_active (e : Env) (tab a : Tab) (s : State) :
  isActivityStreamsURL e (tab_url tab) = true →
  activeTab e = Some a →
  id a = id tab →
  logReady e tab s
  = ((if negb (truthy_str (url (tabData s))) then
        modifyTabData (set_load_reason (Some "newtab"))
      else if negb (truthy_num (session_duration (tabData s))) then
        navigateAwayFromPage e tab "refresh";;
        modifyTabData (set_load_reason (Some "refresh"))
      else mret tt);;
     logActivate e tab) s.
Proof.
  intros Has Ha Hid. unfold logReady. rewrite Has. unfold activeTab_of. rewrite Ha.
  unfold mbind at 1, M_bind at 1, mret at 1, M_ret at 1.
  rewrite bool_decide_eq_true_2 by done.
  by unfold mbind at 1, M_bind at 1, getTabData at 1.
Qed.

(** ** Refresh *)

(** C1, as amended. In a state where a session is live ([url] set) and no
    duration is recorded, [logReady] for the active tracked tab notifies
    exactly one completed session, then starts a new session whose load
    reason is ["refresh"] and whose start time is the reading of the clock
    taken by the activation. The record's unload reason is ["refresh"]
    unless a SEARCH or CLICK event had set the session's unload reason,
    which is then the record's. *)
Theorem logReady_refresh (e : Env) (tab a : Tab) (ot : OpenTab) (s : State) :
  isActivityStreamsURL e (tab_url tab) = true →
  activeTab e = Some a →
  id a = id tab →
  openTabs s !! id tab = Some ot →
  truthy_str (url (tabData s)) = true →
  truthy_num (session_duration (tabData s)) = false →
  ∃ (r : TabData) (s' : State),
    logReady e tab s = (Return tt, s')
    ∧ notified s' = notified s ++ [session_note r]
    ∧ (truthy_str (unload_reason (tabData s)) = false → unload_reason r = Some "refresh")
    ∧ (truthy_str (unload_reason (tabData s)) = true →
       unload_reason r = unload_reason (tabData s))
    ∧ load_reason (tabData s') = Some "refresh"
    ∧ url (tabData s') = Some (tab_url tab)
    ∧ tab_id (tabData s') = Some (id tab)
    ∧ (∃ i : nat, (nowCalls s ≤ i)%nat ∧ nowCalls s' = S i
                  ∧ start_time (tabData s') = Some (absPerfNow e i))
    ∧ unload_reason (tabData s') = None
    ∧ session_duration (tabData s') = None.
Proof.
  intros Has Ha Hid Hot Hurl Hsd.
  destruct (navigateAwayFromPage_spec e tab "refresh" s ot Hot)
    as (r & nc & uc & Hflush & [Hnc _] & _ & Hun & _).
  rewrite (logReady_active e tab a s Has Ha Hid), Hurl, Hsd. simpl negb. cbv iota.
  unfold mbind at 1, M_bind at 1.
  rewrite (bind_Return _ _ _ _ _ Hflush).
  unfold modifyTabData, getTabData, setTabData, mbind at 1, M_bind at 1. simpl.
  erewrite logActivate_tracked; [|exact Has|exact Hot].
  exists r. eexists. split; [reflexivity|]. simpl.
  split; [done|]. split; [by intros H; rewrite Hun, or_str_falsy|].
  split; [by intros H; rewrite Hun, or_str_set|].
  repeat split; try done.
  exists nc. by repeat split.
Qed.

Lemma logReady_refresh_witness :
  isActivityStreamsURL (Demo.env_on Demo.tabA) (tab_url Demo.tabA) = true
  ∧ activeTab (Demo.env_on Demo.tabA) = Some Demo.tabA
  ∧ id Demo.tabA = id Demo.tabA
  ∧ openTabs Demo.loaded !! id Demo.tabA = Some (mkOpenTab "tab-1" Demo.newtab true)
  ∧ truthy_str (url (tabData Demo.loaded)) = true
  ∧ truthy_num (session_duration (tabData Demo.loaded)) = false
  ∧ ∃ (r : TabData) (s' : State),
      logReady (Demo.env_on Demo.tabA) Demo.tabA Demo.loaded = (Return tt, s')
      ∧ notified s' = notified Demo.loaded ++ [session_note r]
      ∧ unload_reason r = Some "refresh"
      ∧ load_reason (tabData s') = Some "refresh".
Proof.
  do 6 (split; [reflexivity|]).
  destruct (logReady_refresh (Demo.env_on Demo.tabA) Demo.tabA Demo.tabA
              (mkOpenTab "tab-1" Demo.newtab true) Demo.loaded
              eq_refl eq_refl eq_refl eq_refl eq_refl eq_refl)
    as (r & s' & Hrun & Hnote & Hun & _ & Hlr & _).
  exists r, s'. repeat split; [exact Hrun | exact Hnote | by apply Hun | exact Hlr].
Defined.

(** C1 as stated fails: the user clicks on the loaded page of tab A and
    the page is then reloaded. [logReady] returns and notifies one
    completed session, whose unload reason is ["click"]: no record with
    the unload reason ["refresh"] is notified. *)
Lemma logReady_refresh_after_click :
  isActivityStreamsURL (Demo.env_on Demo.tabA) (tab_url Demo.tabA) = true
  ∧ activeTab (Demo.env_on Demo.tabA) = Some Demo.tabA
  ∧ is_Some (openTabs Demo.clicked !! id Demo.tabA)
  ∧ truthy_str (url (tabData Demo.clicked)) = true
  ∧ session_duration (tabData Demo.clicked) = None
  ∧ (logReady (Demo.env_on Demo.tabA) Demo.tabA Demo.clicked).1 = Return tt
  ∧ unload_reason
      <$> session_records
            (notified (logReady (Demo.env_on Demo.tabA) Demo.tabA Demo.clicked).2)
    = [Some "click"]
  ∧ ¬ ∃ (r : TabData) (s' : State),
        logReady (Demo.env_on Demo.tabA) Demo.tabA Demo.clicked = (Return tt, s')
        ∧ notified s' = notified Demo.clicked ++ [session_note r]
        ∧ unload_reason r = Some "refresh".
Proof.
  split_and!; try (vm_compute; reflexivity).
  - by eexists.
  - intros (r & s' & Hrun & Hnote & Hun).
    vm_compute in Hrun. injection Hrun as <-.
    vm_compute in Hnote. injection Hnote as <-.
    vm_compute in Hun. discriminate Hun.
Qed.

(** ** The duration of a flushed session *)

(** C3, as amended. With a clock that never goes back, in a state reached
    between two handlers, the record notified by a flush has a duration
    that is not negative; and it has a duration exactly when a start time
    (a reading other than [0]) was on the session state before the flush,
    or no [tab_id] was: the page that never loaded gets the duration [0]
    without ever having had a start time. *)
Theorem flush_duration (e : Env) (tab : Tab) (reason : string) (s : State) (ot : OpenTab) :
  monotone (absPerfNow e) →
  stamped (absPerfNow e) s →
  openTabs s !! id tab = Some ot →
  ∃ (r : TabData) (s' : State),
    navigateAwayFromPage e tab reason s = (Return tt, s')
    ∧ notified s' = notified s ++ [session_note r]
    ∧ (∀ d, session_duration r = Some d → 0 ≤ d)
    ∧ (is_Some (session_duration r)
       ↔ truthy_num (start_time (tabData s)) = true
         ∨ truthy_str (tab_id (tabData s)) = false).
Proof.
  intros Hmono [Hsd Hst] Hot.
  destruct (navigateAwayFromPage_spec e tab reason s ot Hot)
    as (r & nc & uc & Hflush & _ & _ & _ & Hnew & Hold).
  exists r. eexists. split; [exact Hflush|]. split; [done|].
  destruct (truthy_str (tab_id (tabData s))) eqn:Hti.
  - destruct (Hold eq_refl) as (_ & _ & _ & _ & _ & Hdur).
    destruct (start_time (tabData s)) as [t0|] eqn:Ht0; simpl in Hdur |- *.
    + destruct (Z.eqb_spec t0 0) as [->|Hnz]; simpl in Hdur |- *.
      * destruct Hdur as (-> & _). rewrite Hsd. split; [done|].
        split; [by intros [? ?] | by intros [?|?]].
      * destruct Hdur as (-> & _).
        destruct (Hst t0 eq_refl) as (i & Hi & ->). split.
        -- intros d [= <-]. pose proof (Hmono i (nowCalls s)). lia.
        -- split; [by left | by eexists].
    + destruct Hdur as (-> & _). rewrite Hsd. split; [done|].
      split; [by intros [? ?] | by intros [?|?]].
  - destruct (Hnew eq_refl) as (-> & _). split.
    + by intros d [= <-].
    + split; [by right | by eexists].
Qed.

Lemma flush_duration_witness :
  monotone (absPerfNow (Demo.env_on Demo.web))
  ∧ stamped (absPerfNow (Demo.env_on Demo.web)) Demo.loaded
  ∧ openTabs Demo.loaded !! id Demo.tabA = Some (mkOpenTab "tab-1" Demo.newtab true)
  ∧ ∃ (r : TabData) (s' : State),
      navigateAwayFromPage (Demo.env_on Demo.web) Demo.tabA "unfocus" Demo.loaded
      = (Return tt, s')
      ∧ notified s' = notified Demo.loaded ++ [session_note r]
      ∧ (∀ d, session_duration r = Some d → 0 ≤ d)
      ∧ is_Some (session_duration r).
Proof.
  assert (monotone (absPerfNow (Demo.env_on Demo.web))) as Hmono.
  { intros i j Hij. simpl. lia. }
  assert (stamped (absPerfNow (Demo.env_on Demo.web)) Demo.loaded) as Hstamped.
  { apply (run_stamped Demo.env), initState_stamped. }
  split; [exact Hmono|]. split; [exact Hstamped|]. split; [reflexivity|].
  destruct (flush_duration (Demo.env_on Demo.web) Demo.tabA "unfocus" Demo.loaded
              (mkOpenTab "tab-1" Demo.newtab true) Hmono Hstamped eq_refl)
    as (r & s' & Hrun & Hnote & Hpos & Hiff).
  exists r, s'. repeat split; [exact Hrun | exact Hnote | exact Hpos |].
  apply Hiff. left. reflexivity.
Defined.

(** In the branch of the page that never loaded, the record has a duration
    although the session state had no start time. *)
Lemma flush_before_load_not_iff (e : Env) (tab : Tab) (reason : string) (s : State)
    (ot : OpenTab) :
  openTabs s !! id tab = Some ot →
  truthy_str (tab_id (tabData s)) = false →
  start_time (tabData s) = None →
  ¬ ∀ (r : TabData) (s' : State),
      navigateAwayFromPage e tab reason s = (Return tt, s') →
      notified s' = notified s ++ [session_note r] →
      (is_Some (session_duration r) ↔ is_Some (start_time (tabData s))).
Proof.
  intros Hot Hti Hst Hiff.
  destruct (navigateAwayFromPage_spec e tab reason s ot Hot)
    as (r & nc & uc & Hflush & _ & _ & _ & Hnew & _).
  destruct (Hnew Hti) as (Hsd & _).
  destruct (Hiff r _ Hflush eq_refl) as [Hto _].
  rewrite Hsd, Hst in Hto. by destruct Hto as [t Ht].
Qed.

(** C3 as stated fails: tab A's page never loaded and no start time is on
    the session state, and yet the record that the flush notifies when A is
    closed has a duration, [0]. *)
Lemma flush_duration_without_start_time :
  start_time (tabData Demo.unloaded) = None
  ∧ is_Some (openTabs Demo.unloaded !! id Demo.tabA)
  ∧ (navigateAwayFromPage (Demo.env_on Demo.web) Demo.tabA "close" Demo.unloaded).1
    = Return tt
  ∧ session_duration
      <$> session_records
            (notified
               (navigateAwayFromPage (Demo.env_on Demo.web) Demo.tabA "close"
                  Demo.unloaded).2)
    = (session_duration <$> session_records (notified Demo.unloaded)) ++ [Some 0]
  ∧ ¬ ∀ (r : TabData) (s' : State),
        navigateAwayFromPage (Demo.env_on Demo.web) Demo.tabA "close" Demo.unloaded
        = (Return tt, s') →
        notified s' = notified Demo.unloaded ++ [session_note r] →
        (is_Some (session_duration r) ↔ is_Some (start_time (tabData Demo.unloaded))).
Proof.
  split_and!; try (vm_compute; reflexivity).
  - by eexists.
  - apply (flush_before_load_not_iff _ _ _ _ (mkOpenTab "tab-1" Demo.newtab true));
      vm_compute; reflexivity.
Qed.

(** ** Closing a tab *)

(** C4, as amended. [logClose] on a tab that has a row returns. If the
    tab's URL is tracked and the row is active, exactly one completed
    session is notified, with the unload reason ["close"] unless a SEARCH
    or CLICK event had set the session's unload reason, which is then the
    record's, and the row is removed. If the URL is tracked and the row is
    inactive, nothing is notified and the session state is unchanged. If
    the URL is not tracked, nothing is notified, the session state is
    unchanged and the row is removed. *)
Theorem logClose_records (e : Env) (tab : Tab) (s : State) (ot : OpenTab) :
  openTabs s !! id tab = Some ot →
  ∃ s' : State,
    logClose e tab s = (Return tt, s')
    ∧ if isActivityStreamsURL e (tab_url tab) then
        if ot_active ot then
          (∃ r : TabData,
             notified s' = notified s ++ [session_note r]
             ∧ (truthy_str (unload_reason (tabData s)) = false →
                unload_reason r = Some "close")
             ∧ (truthy_str (unload_reason (tabData s)) = true →
                unload_reason r = unload_reason (tabData s)))
          ∧ openTabs s' = delete (id tab) (openTabs s)
        else notified s' = notified s ∧ tabData s' = tabData s
      else
        notified s' = notified s ∧ tabData s' = tabData s
        ∧ openTabs s' = delete (id tab) (openTabs s).
Proof.
  intros Hot. unfold logClose.
  destruct (isActivityStreamsURL e (tab_url tab)).
  - rewrite (bind_Return _ _ _ _ _ (openTab_of_Some _ _ _ Hot)).
    destruct (ot_active ot); cbn [negb]; cbv iota.
    + destruct (navigateAwayFromPage_spec e tab "close" s ot Hot)
        as (r & nc & uc & Hflush & _ & _ & Hun & _).
      rewrite (bind_Return _ _ _ _ _ Hflush). munfold. simpl.
      eexists. split; [reflexivity|]. simpl. split; [|done].
      exists r. split; [done|].
      split; intros H; rewrite Hun; [by rewrite or_str_falsy | by rewrite or_str_set].
    + by exists s.
  - munfold. simpl. eexists. split; [reflexivity|]. by simpl.
Qed.

Lemma logClose_records_witness :
  openTabs Demo.loaded !! id Demo.tabA = Some (mkOpenTab "tab-1" Demo.newtab true)
  ∧ ∃ (r : TabData) (s' : State),
      logClose (Demo.env_on Demo.tabA) Demo.tabA Demo.loaded = (Return tt, s')
      ∧ notified s' = notified Demo.loaded ++ [session_note r]
      ∧ unload_reason r = Some "close"
      ∧ openTabs s' = delete (id Demo.tabA) (openTabs Demo.loaded).
Proof.
  split; [reflexivity|].
  destruct (logClose_records (Demo.env_on Demo.tabA) Demo.tabA Demo.loaded
              (mkOpenTab "tab-1" Demo.newtab true) eq_refl)
    as (s' & Hrun & Hcases).
  change (isActivityStreamsURL (Demo.env_on Demo.tabA) (tab_url Demo.tabA)) with true
    in Hcases.
  simpl in Hcases. destruct Hcases as ((r & Hnote & Hun & _) & Hrow).
  exists r, s'. split_and!; [exact Hrun | exact Hnote | by apply Hun | exact Hrow].
Defined.

(** C4 as stated fails in two places. After a click on the loaded page
    of tab A, whose row is active, closing A notifies one record, whose
    unload reason is ["click"], not ["close"]. And after A was deactivated,
    closing A returns before the row is deleted: A's row is still in the
    table. *)
Lemma logClose_after_click_and_after_unfocus :
  (isActivityStreamsURL (Demo.env_on Demo.tabA) (tab_url Demo.tabA) = true
   ∧ ot_active <$> openTabs Demo.clicked !! id Demo.tabA = Some true
   ∧ (logClose (Demo.env_on Demo.tabA) Demo.tabA Demo.clicked).1 = Return tt
   ∧ unload_reason
       <$> session_records
             (notified (logClose (Demo.env_on Demo.tabA) Demo.tabA Demo.clicked).2)
     = [Some "click"]
   ∧ ¬ ∃ (r : TabData) (s' : State),
         logClose (Demo.env_on Demo.tabA) Demo.tabA Demo.clicked = (Return tt, s')
         ∧ notified s' = notified Demo.clicked ++ [session_note r]
         ∧ unload_reason r = Some "close")
  ∧ (isActivityStreamsURL (Demo.env_on Demo.web) (tab_url Demo.tabA) = true
     ∧ ot_active <$> openTabs Demo.unfocused !! id Demo.tabA = Some false
     ∧ logClose (Demo.env_on Demo.web) Demo.tabA Demo.unfocused
       = (Return tt, Demo.unfocused)
     ∧ openTabs (logClose (Demo.env_on Demo.web) Demo.tabA Demo.unfocused).2
         !! id Demo.tabA
       = Some (mkOpenTab "tab-1" Demo.newtab false)
     ∧ ¬ ∃ s' : State,
           logClose (Demo.env_on Demo.web) Demo.tabA Demo.unfocused = (Return tt, s')
           ∧ openTabs s' !! id Demo.tabA = None).
Proof.
  split_and!; try (vm_compute; reflexivity).
  - intros (r & s' & Hrun & Hnote & Hun).
    vm_compute in Hrun. injection Hrun as <-.
    vm_compute in Hnote. injection Hnote as <-.
    vm_compute in Hun. discriminate Hun.
  - intros (s' & Hrun & Hrow).
    vm_compute in Hrun. injection Hrun as <-.
    vm_compute in Hrow. discriminate Hrow.
Qed.

(** ** The session id and the start time *)




(** The session id generated when a tab is opened does not reach the
    tab's first session when another session is live at its first
    [logReady]. Tab A is opened and loads; tab B is opened, which puts B's
    id and a new session id on the state of A's live session; B's page
    loads. The [logReady] of B finds A's URL on the state and flushes: the
    record has the session id generated at B's opening, and B's first
    session starts as a refresh with a third id. *)
Lemma session_id_of_open_spent_on_live_session :
  url (tabData (run Demo.env
                  [(Some Demo.tabA, Open Demo.tabA); (Some Demo.tabA, Ready Demo.tabA);
                   (Some Demo.tabA, Open Demo.tabB)] initState))
  = Some Demo.newtab
  ∧ session_id (tabData (run Demo.env
                           [(Some Demo.tabA, Open Demo.tabA);
                            (Some Demo.tabA, Ready Demo.tabA);
                            (Some Demo.tabA, Open Demo.tabB)] initState))
    = Some "b-uuid"
  ∧ session_id
      <$> session_records
            (notified (run Demo.env
                         [(Some Demo.tabA, Open Demo.tabA);
                          (Some Demo.tabA, Ready Demo.tabA);
                          (Some Demo.tabA, Open Demo.tabB);
                          (Some Demo.tabB, Ready Demo.tabB)] initState))
    = [Some "b-uuid"]
  ∧ load_reason (tabData (run Demo.env
                            [(Some Demo.tabA, Open Demo.tabA);
                             (Some Demo.tabA, Ready Demo.tabA);
                             (Some Demo.tabA, Open Demo.tabB);
                             (Some Demo.tabB, Ready Demo.tabB)] initState))
    = Some "refresh"
  ∧ session_id (tabData (run Demo.env
                           [(Some Demo.tabA, Open Demo.tabA);
                            (Some Demo.tabA, Ready Demo.tabA);
                            (Some Demo.tabA, Open Demo.tabB);
                            (Some Demo.tabB, Ready Demo.tabB)] initState))
    = Some "c-uuid".
Proof.
  split_and!; vm_compute; reflexivity.
Qed.

(** ** Events without an active tab *)

(** Without an active tab a performance event is dropped: nothing is
    notified, nothing changes, nothing is thrown. *)
Lemma handlePerformanceEvent_no_active_tab (e : Env) (eventData : Obj)
    (eventName value : JsVal) (s : State) :
  activeTab e = None →
  handlePerformanceEvent e eventData eventName value s = (Return tt, s).
Proof. intros Hnone. unfold handlePerformanceEvent. by rewrite Hnone. Qed.

(** Without an active tab a user event throws, at [tabs.activeTab.id],
    before anything is notified. *)
Lemma handleUserEvent_no_active_tab (e : Env) (payload : Obj) (s : State) :
  activeTab e = None →
  handleUserEvent e payload s = (Throw TypeError, s).
Proof. intros Hnone. unfold handleUserEvent, activeTab_of. by rewrite Hnone. Qed.

(** And so does an undesired event. *)
Lemma handleUndesiredEvent_no_active_tab (e : Env) (payload : Obj) (s : State) :
  activeTab e = None →
  handleUndesiredEvent e payload s = (Throw TypeError, s).
Proof. intros Hnone. unfold handleUndesiredEvent, activeTab_of. by rewrite Hnone. Qed.

(** With an active tab the three handlers return. *)
Lemma handleUserEvent_returns (e : Env) (payload : Obj) (a : Tab) (s : State) :
  activeTab e = Some a →
  (handleUserEvent e payload s).1 = Return tt.
Proof.
  intros Ha. unfold handleUserEvent, activeTab_of. rewrite Ha. munfold. simpl.
  destruct (_ || _); [|done].
  by destruct (prop _ "event").
Qed.

Lemma handleUndesiredEvent_returns (e : Env) (payload : Obj) (a : Tab) (s : State) :
  activeTab e = Some a →
  (handleUndesiredEvent e payload s).1 = Return tt.
Proof. intros Ha. unfold handleUndesiredEvent, activeTab_of. by rewrite Ha. Qed.

Lemma handlePerformanceEvent_returns (e : Env) (eventData : Obj) (eventName value : JsVal)
    (s : State) :
  (handlePerformanceEvent e eventData eventName value s).1 = Return tt.
Proof. unfold handlePerformanceEvent. by destruct (activeTab e). Qed.

(** C8. The tracker at the failing input: no tab is active (the window is
    closing) while a session is live. The performance event is dropped in
    silence, as the claim says. The user event and the undesired event
    throw a [TypeError] instead of completing. *)
Theorem events_without_active_tab :
  activeTab Demo.env = None
  ∧ handlePerformanceEvent Demo.env ∅ (JStr "NEWTAB_RENDER") (JNum 12) Demo.loaded
    = (Return tt, Demo.loaded)
  ∧ handleUserEvent Demo.env Demo.click Demo.loaded = (Throw TypeError, Demo.loaded)
  ∧ handleUndesiredEvent Demo.env
      {[ "event" := JStr "SLOW_ADDON_DETECTED"; "source" := JStr "ADDON" ]} Demo.loaded
    = (Throw TypeError, Demo.loaded).
Proof.
  split; [reflexivity|]. split_and!.
  - by apply handlePerformanceEvent_no_active_tab.
  - by apply handleUserEvent_no_active_tab.
  - by apply handleUndesiredEvent_no_active_tab.
Qed.

(** * Further properties of the tracker *)

(** ** Tracked URLs and pages *)

(** X1. A URL is tracked exactly when it is one of the configured URLs,
    character for character: [isActivityStreamsURL] is membership in
    [_trackableURLs]. *)
Theorem isActivityStreamsURL_exact (e : Env) (URL : string) :
  isActivityStreamsURL e URL = true ↔ URL ∈ trackableURLs e.
Proof.
  unfold isActivityStreamsURL.
  induction (trackableURLs e) as [|y arr IH]; simpl.
  - split; [done | by intros ?%elem_of_nil].
  - rewrite elem_of_cons. destruct (String.eqb_spec y URL) as [->|Hne]; simpl.
    + split; [by left | done].
    + pose proof (indexOf_bounds arr URL) as Hb.
      destruct (Z.eqb_spec (indexOf arr URL) (-1)) as [Heq|Hneq]; simpl.
      * split; [done|]. intros [->|Hin]; [done|]. by apply IH in Hin.
      * destruct (Z.eqb_spec (indexOf arr URL + 1) (-1)) as [|_]; [lia|].
        split; [intros _; right; by apply IH | done].
Qed.

Lemma prefix_empty (s : string) : String.prefix "" s = true.
Proof. by destruct s. Qed.

Lemma prefix_route_sep_head (t : string) :
  String.prefix "#/" (String "#" (String "/" t)) = true.
Proof. cbn. by rewrite prefix_empty. Qed.

Lemma prefix_route_sep_app (c : ascii) (s t : string) :
  String.prefix "#/" (String c s +:+ "#/" +:+ t) = String.prefix "#/" (String c s).
Proof.
  change (String c s +:+ "#/" +:+ t) with (String c (s +:+ "#/" +:+ t)).
  cbn [String.prefix]. destruct (ascii_dec "#" c) as [_|_]; [|done].
  destruct s as [|d s].
  - change ("" +:+ "#/" +:+ t) with (String "#" (String "/" t)). by cbn.
  - change (String d s +:+ "#/" +:+ t) with (String d (s +:+ "#/" +:+ t)).
    cbn [String.prefix]. destruct (ascii_dec "/" d) as [_|_]; [|done].
    by rewrite !prefix_empty.
Qed.

Lemma append_cons (c : ascii) (s t : string) :
  String c s +:+ t = String c (s +:+ t).
Proof. reflexivity. Qed.

Lemma append_empty_r (s : string) : s +:+ "" = s.
Proof. induction s as [|c s IH]; [done|]. by rewrite append_cons, IH. Qed.

Lemma rev_app_append (a b s : string) :
  String.rev_app a b +:+ s = String.rev_app a (b +:+ s).
Proof. revert b. induction a as [|c a IH]; intros b; [done|]. cbn. by rewrite IH. Qed.

Lemma rev_cons_append (c : ascii) (cur s : string) :
  String.rev (String c cur) +:+ s = String.rev cur +:+ String c s.
Proof. unfold String.rev. cbn. by rewrite !rev_app_append. Qed.

(** Without a separator the whole string is the one piece. *)
Lemma split_from_no_sep (s cur : string) :
  has_route_sep s = false →
  split_from "#/" s O cur = [String.rev cur +:+ s].
Proof.
  revert cur. induction s as [|c s IH]; intros cur Hno.
  - cbn [split_from]. by rewrite append_empty_r.
  - cbn [has_route_sep] in Hno. apply orb_false_iff in Hno as [Hp Hno].
    cbn [split_from]. rewrite Hp, (IH _ Hno). by rewrite rev_cons_append.
Qed.

(** With one separator there are two pieces: before and after it. *)
Lemma split_from_one_sep (base frag cur : string) :
  has_route_sep base = false →
  has_route_sep frag = false →
  split_from "#/" (base +:+ "#/" +:+ frag) O cur = [String.rev cur +:+ base; frag].
Proof.
  revert cur. induction base as [|c base IH]; intros cur Hbase Hfrag.
  - change ("" +:+ "#/" +:+ frag) with (String "#" (String "/" frag)).
    cbn [split_from]. rewrite prefix_route_sep_head.
    cbn [String.length Nat.pred split_from].
    rewrite (split_from_no_sep frag "" Hfrag). by rewrite append_empty_r.
  - cbn [has_route_sep] in Hbase. apply orb_false_iff in Hbase as [Hp Hbase].
    rewrite append_cons. cbn [split_from]. rewrite <- append_cons.
    rewrite prefix_route_sep_app, Hp, (IH _ Hbase Hfrag).
    by rewrite rev_cons_append.
Qed.

(** X2. The page of a URL. A URL [base#/frag] in which ["#/"] occurs
    only once has the page [frag], or the default page when [frag] is
    empty; a URL without ["#/"] has the default page. *)
Theorem page_of_route (e : Env) (base frag : string) :
  has_route_sep base = false →
  has_route_sep frag = false →
  page_of e (base +:+ "#/" +:+ frag)
  = (if String.eqb frag "" then defaultPage e else frag)
  ∧ page_of e base = defaultPage e.
Proof.
  intros Hbase Hfrag. unfold page_of, split.
  rewrite (split_from_one_sep base frag "" Hbase Hfrag).
  by rewrite (split_from_no_sep base "" Hbase).
Qed.

Lemma page_of_route_witness :
  has_route_sep "about:newtab" = false
  ∧ has_route_sep "timeline" = false
  ∧ page_of Demo.env "about:newtab#/timeline" = "timeline"
  ∧ page_of Demo.env "about:newtab" = "NEW_TAB".
Proof.
  do 2 (split; [reflexivity|]).
  exact (page_of_route Demo.env "about:newtab" "timeline" eq_refl eq_refl).
Defined.


(** ** The pings of the events *)

Lemma JSON_stringify_lookup (o : Obj) (k : string) :
  JSON_stringify o !! k
  = match o !! k with
    | Some JUndef => None
    | x => x
    end.
Proof.
  unfold JSON_stringify. destruct (o !! k) as [v|] eqn:Hk.
  - destruct (decide (v = JUndef)) as [->|Hv].
    + apply map_lookup_filter_None. right. intros x Hx. simpl. naive_solver.
    + transitivity (Some v); [|by destruct v].
      by apply map_lookup_filter_Some.
  - apply map_lookup_filter_None. by left.
Qed.

(** The common properties as the ping carries them: the tracker's values
    stand, whatever the payload held under these names. *)
Lemma stamped_lookup (e : Env) (td : TabData) (u : string) (payload : Obj) :
  JSON_stringify (_setCommonProperties e td u payload) !! "client_id"
  = Some (JStr (clientID e))
  ∧ JSON_stringify (_setCommonProperties e td u payload) !! "addon_version"
    = Some (JStr (self_version e))
  ∧ JSON_stringify (_setCommonProperties e td u payload) !! "locale"
    = Some (JStr (getLocale e))
  ∧ JSON_stringify (_setCommonProperties e td u payload) !! "page"
    = Some (JStr (page_of e u))
  ∧ JSON_stringify (_setCommonProperties e td u payload) !! "session_id"
    = JStr <$> session_id td.
Proof.
  rewrite !JSON_stringify_lookup. unfold _setCommonProperties.
  destruct (truthy_str (experimentID e));
    rewrite ?(lookup_insert_ne _ "experiment_id") by done;
    rewrite ?(lookup_insert_ne _ "session_id" "page"),
      ?(lookup_insert_ne _ "session_id" "locale"),
      ?(lookup_insert_ne _ "session_id" "addon_version"),
      ?(lookup_insert_ne _ "session_id" "client_id") by done;
    rewrite ?(lookup_insert_ne _ "page" "locale"),
      ?(lookup_insert_ne _ "page" "addon_version"),
      ?(lookup_insert_ne _ "page" "client_id") by done;
    rewrite ?(lookup_insert_ne _ "locale" "addon_version"),
      ?(lookup_insert_ne _ "locale" "client_id") by done;
    rewrite ?(lookup_insert_ne _ "addon_version" "client_id") by done;
    rewrite !lookup_insert_eq; split_and!; try done;
    by destruct (session_id td).
Qed.

(** The one notification that a handler of an event adds. *)
Lemma handleUserEvent_active (e : Env) (payload : Obj) (a : Tab) (s : State) :
  activeTab e = Some a →
  handleUserEvent e payload s
  = (Return tt,
     mkState
       (match payload !! "event" with
        | Some (JStr ev) =>
            if bool_decide (ev = "SEARCH") || bool_decide (ev = "CLICK")
            then set_unload_reason (Some (toLowerCase ev)) (tabData s)
            else tabData s
        | _ => tabData s
        end)
       (openTabs s)
       (notified s
        ++ [mkNotification ACTION_NOTIF
              (JsonPayload
                 (JSON_stringify
                    (_setCommonProperties e (tabData s) (tab_url a)
                       (<["tab_id" := JStr (id a)]>
                          (<["action" := JStr "activity_stream_event"]> payload)))))])
       (nowCalls s) (uuidCalls s)).
Proof.
  intros Ha. unfold handleUserEvent, activeTab_of. rewrite Ha. munfold. simpl.
  assert (prop (_setCommonProperties e (tabData s) (tab_url a)
                  (<["tab_id":=JStr (id a)]>
                     (<["action":=JStr "activity_stream_event"]> payload))) "event"
          = prop payload "event") as ->.
  { unfold prop. rewrite _setCommonProperties_other.
    - by rewrite !lookup_insert_ne.
    - rewrite !not_elem_of_cons. repeat split; try done. apply not_elem_of_nil. }
  unfold prop. destruct s as [td ots ns nc uc]. simpl.
  destruct (payload !! "event") as [[| |b|z|ev]|]; simpl; try done.
  destruct (bool_decide (ev = "SEARCH")) eqn:H1, (bool_decide (ev = "CLICK")) eqn:H2;
    simpl; try done.
  - apply bool_decide_eq_true in H1 as ->. done.
  - apply bool_decide_eq_true in H1 as ->. done.
  - apply bool_decide_eq_true in H2 as ->. done.
  - rewrite bool_decide_eq_false_2, bool_decide_eq_false_2; [done|..].
    + intros [=]. by apply bool_decide_eq_false in H2.
    + intros [=]. by apply bool_decide_eq_false in H1.
Qed.

Lemma stamped_other (e : Env) (td : TabData) (u k : string) (payload : Obj) :
  k ∉ ["client_id"; "addon_version"; "locale"; "page"; "session_id"; "experiment_id"] →
  JSON_stringify (_setCommonProperties e td u payload) !! k
  = JSON_stringify payload !! k.
Proof.
  intros Hk. by rewrite !JSON_stringify_lookup, _setCommonProperties_other.
Qed.

(** The experiment id is the tracker's when it has one; otherwise what
    the payload held under that name stays. *)
Lemma stamped_experiment_id (e : Env) (td : TabData) (u : string) (payload : Obj) :
  JSON_stringify (_setCommonProperties e td u payload) !! "experiment_id"
  = if truthy_str (experimentID e) then JStr <$> experimentID e
    else JSON_stringify payload !! "experiment_id".
Proof.
  rewrite !JSON_stringify_lookup. unfold _setCommonProperties.
  destruct (truthy_str (experimentID e)) eqn:Hx.
  - rewrite lookup_insert_eq. by destruct (experimentID e).
  - by rewrite !lookup_insert_ne.
Qed.



(** X4. Only the exact names ["SEARCH"] and ["CLICK"] touch the session:
    a user event whose [event] is any other value (another name, the same
    name in another case, a value that is not a string, or none) leaves
    the session state as it was. *)
Theorem handleUserEvent_other_event (e : Env) (payload : Obj) (a : Tab) (s : State) :
  activeTab e = Some a →
  payload !! "event" ≠ Some (JStr "SEARCH") →
  payload !! "event" ≠ Some (JStr "CLICK") →
  ∃ s' : State,
    handleUserEvent e payload s = (Return tt, s')
    ∧ tabData s' = tabData s
    ∧ openTabs s' = openTabs s.
Proof.
  intros Ha Hs Hc. eexists. split; [exact (handleUserEvent_active e payload a s Ha)|].
  cbn [tabData openTabs]. split; [|done].
  destruct (payload !! "event") as [[| |b|z|ev]|]; try done.
  rewrite bool_decide_eq_false_2, bool_decide_eq_false_2; [done|..]; congruence.
Qed.

Lemma handleUserEvent_other_event_witness :
  activeTab (Demo.env_on Demo.tabA) = Some Demo.tabA
  ∧ ({[ "event" := JStr "click" ]} : Obj) !! "event" ≠ Some (JStr "SEARCH")
  ∧ ({[ "event" := JStr "click" ]} : Obj) !! "event" ≠ Some (JStr "CLICK")
  ∧ ∃ s' : State,
      handleUserEvent (Demo.env_on Demo.tabA) {[ "event" := JStr "click" ]} Demo.loaded
      = (Return tt, s')
      ∧ tabData s' = tabData Demo.loaded.
Proof.
  assert (({[ "event" := JStr "click" ]} : Obj) !! "event" ≠ Some (JStr "SEARCH")) as H1.
  { vm_compute. discriminate. }
  assert (({[ "event" := JStr "click" ]} : Obj) !! "event" ≠ Some (JStr "CLICK")) as H2.
  { vm_compute. discriminate. }
  split; [reflexivity|]. split; [exact H1|]. split; [exact H2|].
  destruct (handleUserEvent_other_event (Demo.env_on Demo.tabA)
              {[ "event" := JStr "click" ]} Demo.tabA Demo.loaded eq_refl H1 H2)
    as (s' & Hrun & Htd & _).
  by exists s'.
Defined.

Lemma handleUndesiredEvent_active (e : Env) (payload : Obj) (a : Tab) (s : State) :
  activeTab e = Some a →
  handleUndesiredEvent e payload s
  = (Return tt,
     mkState (tabData s) (openTabs s)
       (notified s
        ++ [mkNotification UNDESIRED_NOTIF
              (JsonPayload
                 (JSON_stringify
                    (let stamped :=
                       _setCommonProperties e (tabData s) (tab_url a)
                         (<["tab_id" := JStr (id a)]>
                            (<["action" := JStr "activity_stream_masga_event"]> payload))
                     in
                     if negb (has_prop "value" stamped)
                     then <["value" := JNum 0]> stamped
                     else stamped)))])
       (nowCalls s) (uuidCalls s)).
Proof.
  intros Ha. unfold handleUndesiredEvent, activeTab_of. rewrite Ha. by munfold.
Qed.

(** X5. An undesired event that arrives while a tab is active is notified
    once, on the topic of the undesired events, and the session state, the
    table of open tabs and the counters stay as they were. The ping's
    [value] is [0] when the payload has no property [value]; it is the
    payload's value when it has one; and when the payload's [value] is
    [undefined] the ping has no [value] at all, the default not being
    applied to a property that is present. *)
Theorem handleUndesiredEvent_value (e : Env) (payload : Obj) (a : Tab) (s : State) :
  activeTab e = Some a →
  ∃ p : Obj,
    handleUndesiredEvent e payload s
    = (Return tt,
       mkState (tabData s) (openTabs s)
         (notified s ++ [mkNotification UNDESIRED_NOTIF (JsonPayload p)])
         (nowCalls s) (uuidCalls s))
    ∧ p !! "action" = Some (JStr "activity_stream_masga_event")
    ∧ p !! "tab_id" = Some (JStr (id a))
    ∧ p !! "value"
      = match payload !! "value" with
        | None => Some (JNum 0)
        | Some JUndef => None
        | Some v => Some v
        end.
Proof.
  intros Ha. eexists. split; [exact (handleUndesiredEvent_active e payload a s Ha)|].
  assert (∀ k : string,
            k ∉ ["action"; "tab_id"; "client_id"; "addon_version"; "locale"; "page";
                 "session_id"; "experiment_id"] →
            _setCommonProperties e (tabData s) (tab_url a)
              (<["tab_id" := JStr (id a)]>
                 (<["action" := JStr "activity_stream_masga_event"]> payload)) !! k
            = payload !! k) as Hother.
  { intros k Hk. apply not_elem_of_cons in Hk as [Hk1 Hk].
    apply not_elem_of_cons in Hk as [Hk2 Hk].
    rewrite (_setCommonProperties_other _ _ _ _ _ Hk). by rewrite !lookup_insert_ne. }
  assert (_setCommonProperties e (tabData s) (tab_url a)
            (<["tab_id" := JStr (id a)]>
               (<["action" := JStr "activity_stream_masga_event"]> payload))
            !! "action" = Some (JStr "activity_stream_masga_event")) as Hact.
  { rewrite _setCommonProperties_other.
    - by rewrite lookup_insert_ne, lookup_insert_eq.
    - rewrite !not_elem_of_cons. repeat split; try done. apply not_elem_of_nil. }
  assert (_setCommonProperties e (tabData s) (tab_url a)
            (<["tab_id" := JStr (id a)]>
               (<["action" := JStr "activity_stream_masga_event"]> payload))
            !! "tab_id" = Some (JStr (id a))) as Htab.
  { rewrite _setCommonProperties_other.
    - by rewrite lookup_insert_eq.
    - rewrite !not_elem_of_cons. repeat split; try done. apply not_elem_of_nil. }
  assert (_setCommonProperties e (tabData s) (tab_url a)
            (<["tab_id" := JStr (id a)]>
               (<["action" := JStr "activity_stream_masga_event"]> payload)) !! "value"
          = payload !! "value") as Hval.
  { apply Hother. rewrite !not_elem_of_cons. repeat split; try done.
    apply not_elem_of_nil. }
  cbv zeta. unfold has_prop. rewrite Hval.
  destruct (payload !! "value") as [v|] eqn:Hv.
  - rewrite bool_decide_eq_true_2 by by eexists. cbn [negb].
    rewrite !JSON_stringify_lookup, Hact, Htab, Hval. by destruct v.
  - rewrite bool_decide_eq_false_2 by by intros [? ?]. cbn [negb].
    rewrite !JSON_stringify_lookup, !lookup_insert_ne, Hact, Htab by done.
    by rewrite lookup_insert_eq.
Qed.

Lemma handleUndesiredEvent_value_witness :
  activeTab (Demo.env_on Demo.tabA) = Some Demo.tabA
  ∧ (∃ p : Obj,
       data <$> last (notified
         (handleUndesiredEvent (Demo.env_on Demo.tabA)
            {[ "event" := JStr "SLOW_ADDON_DETECTED" ]} Demo.loaded).2)
       = Some (JsonPayload p)
       ∧ p !! "value" = Some (JNum 0))
  ∧ (∃ p : Obj,
       data <$> last (notified
         (handleUndesiredEvent (Demo.env_on Demo.tabA)
            {[ "value" := JUndef ]} Demo.loaded).2)
       = Some (JsonPayload p)
       ∧ p !! "value" = None).
Proof.
  split; [reflexivity|]. split.
  - destruct (handleUndesiredEvent_value (Demo.env_on Demo.tabA)
                {[ "event" := JStr "SLOW_ADDON_DETECTED" ]} Demo.tabA Demo.loaded eq_refl)
      as (p & -> & _ & _ & Hv).
    exists p. cbn [snd notified]. rewrite last_snoc. split; [done|]. exact Hv.
  - destruct (handleUndesiredEvent_value (Demo.env_on Demo.tabA)
                {[ "value" := JUndef ]} Demo.tabA Demo.loaded eq_refl)
      as (p & -> & _ & _ & Hv).
    exists p. cbn [snd notified]. rewrite last_snoc. split; [done|]. exact Hv.
Defined.

Lemma handlePerformanceEvent_active (e : Env) (eventData : Obj) (eventName value : JsVal)
    (a : Tab) (s : State) :
  activeTab e = Some a →
  handlePerformanceEvent e eventData eventName value s
  = (Return tt,
     mkState (tabData s) (openTabs s)
       (notified s
        ++ [mkNotification PERFORMANCE_NOTIF
              (JsonPayload
                 (JSON_stringify
                    (_setCommonProperties e (tabData s) (tab_url a)
                       (<["value" := value]>
                          (<["event" := eventName]>
                             (<["tab_id" := JStr (id a)]>
                                (<["action" := JStr "activity_stream_performance"]>
                                   eventData)))))))])
       (nowCalls s) (uuidCalls s)).
Proof. intros Ha. unfold handlePerformanceEvent. rewrite Ha. by munfold. Qed.

(** X6. A performance event that arrives while a tab is active is
    notified once, on the topic of the performance events, and changes
    nothing else: the session state, the table of open tabs and the
    counters stay as they were. The ping's [event] and [value] are the
    handler's arguments and its [tab_id] the active tab's id, whatever the
    event data held under these names; it carries the id of the live
    session. *)
Theorem handlePerformanceEvent_ping (e : Env) (eventData : Obj) (eventName value : JsVal)
    (a : Tab) (s : State) :
  activeTab e = Some a →
  ∃ p : Obj,
    handlePerformanceEvent e eventData eventName value s
    = (Return tt,
       mkState (tabData s) (openTabs s)
         (notified s ++ [mkNotification PERFORMANCE_NOTIF (JsonPayload p)])
         (nowCalls s) (uuidCalls s))
    ∧ p !! "action" = Some (JStr "activity_stream_performance")
    ∧ p !! "tab_id" = Some (JStr (id a))
    ∧ p !! "event" = (if decide (eventName = JUndef) then None else Some eventName)
    ∧ p !! "value" = (if decide (value = JUndef) then None else Some value)
    ∧ p !! "session_id" = JStr <$> session_id (tabData s).
Proof.
  intros Ha. eexists.
  split; [exact (handlePerformanceEvent_active e eventData eventName value a s Ha)|].
  destruct (stamped_lookup e (tabData s) (tab_url a)
              (<["value" := value]>
                 (<["event" := eventName]>
                    (<["tab_id" := JStr (id a)]>
                       (<["action" := JStr "activity_stream_performance"]> eventData)))))
    as (_ & _ & _ & _ & Hsi).
  split_and!; try done.
  all: rewrite stamped_other, JSON_stringify_lookup;
    [|rewrite !not_elem_of_cons; repeat split; try done; apply not_elem_of_nil].
  - rewrite !lookup_insert_ne by done. by rewrite lookup_insert_eq.
  - rewrite !lookup_insert_ne by done. by rewrite lookup_insert_eq.
  - rewrite lookup_insert_ne by done. rewrite lookup_insert_eq.
    destruct (decide (eventName = JUndef)) as [->|Hne]; [done | by destruct eventName].
  - rewrite lookup_insert_eq.
    destruct (decide (value = JUndef)) as [->|Hne]; [done | by destruct value].
Qed.

Lemma handlePerformanceEvent_ping_witness :
  activeTab (Demo.env_on Demo.tabA) = Some Demo.tabA
  ∧ ∃ p : Obj,
      handlePerformanceEvent (Demo.env_on Demo.tabA)
        {[ "event" := JStr "forged"; "tab_id" := JStr "tab-9" ]}
        (JStr "NEWTAB_RENDER") (JNum 12) Demo.loaded
      = (Return tt,
         mkState (tabData Demo.loaded) (openTabs Demo.loaded)
           (notified Demo.loaded ++ [mkNotification PERFORMANCE_NOTIF (JsonPayload p)])
           (nowCalls Demo.loaded) (uuidCalls Demo.loaded))
      ∧ p !! "tab_id" = Some (JStr "tab-1")
      ∧ p !! "event" = Some (JStr "NEWTAB_RENDER")
      ∧ p !! "value" = Some (JNum 12).
Proof.
  split; [reflexivity|].
  destruct (handlePerformanceEvent_ping (Demo.env_on Demo.tabA)
              {[ "event" := JStr "forged"; "tab_id" := JStr "tab-9" ]}
              (JStr "NEWTAB_RENDER") (JNum 12) Demo.tabA Demo.loaded eq_refl)
    as (p & Hrun & _ & Hti & Hev & Hv & _).
  exists p. split_and!; [exact Hrun | exact Hti | exact Hev | exact Hv].
Defined.

(** X7. The session id generated when a tab is opened is available to the
    performance events at once: a performance event that follows [onOpen],
    before any page is ready, carries that id. *)
Theorem performance_ping_after_open (e e' : Env) (tab a : Tab) (eventData : Obj)
    (eventName value : JsVal) (s : State) :
  activeTab e' = Some a →
  ∃ (s1 : State) (p : Obj),
    onOpen e tab s = (Return tt, s1)
    ∧ handlePerformanceEvent e' eventData eventName value s1
      = (Return tt,
         mkState (tabData s1) (openTabs s1)
           (notified s ++ [mkNotification PERFORMANCE_NOTIF (JsonPayload p)])
           (nowCalls s1) (uuidCalls s1))
    ∧ p !! "session_id" = Some (JStr (uuid e (uuidCalls s))).
Proof.
  intros Ha.
  assert (∃ s1, onOpen e tab s = (Return tt, s1)
                ∧ session_id (tabData s1) = Some (uuid e (uuidCalls s))
                ∧ notified s1 = notified s) as (s1 & Hopen & Hsi & Hn).
  { unfold onOpen. munfold. simpl.
    destruct (store e); eexists; (split; [reflexivity|]); by simpl. }
  exists s1. eexists. split; [exact Hopen|].
  rewrite (handlePerformanceEvent_active e' eventData eventName value a s1 Ha), Hn.
  split; [reflexivity|].
  destruct (stamped_lookup e' (tabData s1) (tab_url a)
              (<["value" := value]>
                 (<["event" := eventName]>
                    (<["tab_id" := JStr (id a)]>
                       (<["action" := JStr "activity_stream_performance"]> eventData)))))
    as (_ & _ & _ & _ & ->).
  by rewrite Hsi.
Qed.

Lemma performance_ping_after_open_witness :
  activeTab (Demo.env_on Demo.web) = Some Demo.web
  ∧ ∃ (s1 : State) (p : Obj),
      onOpen Demo.env Demo.tabA initState = (Return tt, s1)
      ∧ handlePerformanceEvent (Demo.env_on Demo.web) ∅ (JStr "NEWTAB_RENDER") (JNum 12) s1
        = (Return tt,
           mkState (tabData s1) (openTabs s1)
             (notified initState ++ [mkNotification PERFORMANCE_NOTIF (JsonPayload p)])
             (nowCalls s1) (uuidCalls s1))
      ∧ p !! "session_id" = Some (JStr "a-uuid").
Proof.
  split; [reflexivity|].
  exact (performance_ping_after_open Demo.env (Demo.env_on Demo.web) Demo.tabA Demo.web
           ∅ (JStr "NEWTAB_RENDER") (JNum 12) initState eq_refl).
Defined.

(** ** The record of a flush *)

(** The record that a flush notifies, property by property. *)
Lemma navigateAwayFromPage_record (e : Env) (tab : Tab) (reason : string) (s : State)
    (ot : OpenTab) :
  openTabs s !! id tab = Some ot →
  ∃ (r : TabData) (nc uc : nat),
    navigateAwayFromPage e tab reason s
    = (Return tt,
       mkState (cleared (tabData s)) (openTabs s) (notified s ++ [session_note r]) nc uc)
    ∧ action r = Some "activity_stream_session"
    ∧ client_id r = Some (clientID e)
    ∧ addon_version r = Some (self_version e)
    ∧ locale r = Some (getLocale e)
    ∧ page r = Some (page_of e (ot_url ot))
    ∧ experiment_id r
      = (if truthy_str (experimentID e) then experimentID e
         else experiment_id (tabData s))
    ∧ unload_reason r = Some (or_str (unload_reason (tabData s)) reason)
    ∧ highlights_size r = Some (highlights_count e)
    ∧ total_history_size r = total_history_size (tabData s)
    ∧ total_bookmarks r = total_bookmarks (tabData s)
    ∧ (if truthy_str (tab_id (tabData s)) then
         tab_id r = tab_id (tabData s)
         ∧ url r = url (tabData s)
         ∧ load_reason r = load_reason (tabData s)
         ∧ session_id r = session_id (tabData s)
         ∧ uc = uuidCalls s
         ∧ (if truthy_num (start_time (tabData s)) then
              session_duration r
              = Some (absPerfNow e (nowCalls s) - default 0 (start_time (tabData s)))
              ∧ start_time r = None ∧ nc = S (nowCalls s)
            else
              session_duration r = session_duration (tabData s)
              ∧ start_time r = start_time (tabData s) ∧ nc = nowCalls s)
       else
         tab_id r = Some (id tab)
         ∧ url r = Some (tab_url tab)
         ∧ load_reason r = Some (or_str (load_reason (tabData s)) "none")
         ∧ session_duration r = Some 0
         ∧ start_time r = None
         ∧ nc = nowCalls s
         ∧ (if truthy_str (session_id (tabData s)) then
              session_id r = session_id (tabData s) ∧ uc = uuidCalls s
            else
              session_id r = Some (uuid e (uuidCalls s)) ∧ uc = S (uuidCalls s))).
Proof.
  intros Hot. destruct s as [td ots ns nc uc]. simpl in *.
  unfold navigateAwayFromPage, _setCommonProperties_tabData, _initTabSession, _clearTabData.
  munfold. simpl. rewrite Hot. simpl.
  destruct td as [ac ci av lo pg si ei ur ti lr un st sd hs th tb]. simpl.
  destruct (truthy_str (experimentID e)); simpl;
    destruct (truthy_str ti) eqn:Hti; simpl.
  all: try (destruct st as [t0|]; simpl; [destruct (Z.eqb t0 0) eqn:Ht0; simpl|]).
  all: try (destruct (truthy_str si) eqn:Hsi; simpl).
  all: do 3 eexists; (split; [reflexivity|]); simpl; by split_and!.
Qed.

Lemma highlights_count_unavailable (e : Env) :
  -1 ≤ highlights_count e
  ∧ (highlights_count e = -1
     ↔ match store e with
       | None => True
       | Some currentState =>
           Highlights_error currentState = true ∨ Highlights_init currentState = false
       end).
Proof.
  unfold highlights_count. destruct (store e) as [st|]; [|by split].
  destruct (Highlights_error st), (Highlights_init st); simpl; split;
    try lia; try (split; [by auto | done]).
  all: split; [lia | intros [?|?]; done].
Qed.

(** X8. The context of a flushed record. Its page is the page of the URL
    stored in the tab's row, not of the URL the tab shows now. Its
    [highlights_size] is never below [-1], and is [-1] exactly when the
    tracker has no store or the store's highlights are in error or not
    initialised. The two size counters are in the record and are all that
    the session state keeps after the flush. *)
Theorem flush_context (e : Env) (tab : Tab) (reason : string) (s : State) (ot : OpenTab) :
  openTabs s !! id tab = Some ot →
  ∃ (r : TabData) (s' : State) (h : Z),
    navigateAwayFromPage e tab reason s = (Return tt, s')
    ∧ notified s' = notified s ++ [session_note r]
    ∧ page r = Some (page_of e (ot_url ot))
    ∧ highlights_size r = Some h
    ∧ -1 ≤ h
    ∧ (h = -1
       ↔ match store e with
         | None => True
         | Some currentState =>
             Highlights_error currentState = true
             ∨ Highlights_init currentState = false
         end)
    ∧ total_history_size r = total_history_size (tabData s)
    ∧ total_bookmarks r = total_bookmarks (tabData s)
    ∧ tabData s'
      = mkTabData None None None None None None None None None None None None None None
          (total_history_size (tabData s)) (total_bookmarks (tabData s)).
Proof.
  intros Hot.
  destruct (navigateAwayFromPage_record e tab reason s ot Hot)
    as (r & nc & uc & Hflush & _ & _ & _ & _ & Hpg & _ & _ & Hhs & Hth & Htb & _).
  destruct (highlights_count_unavailable e) as [Hge Hiff].
  exists r. eexists. exists (highlights_count e).
  split; [exact Hflush|]. by split_and!.
Qed.

Lemma flush_context_witness :
  openTabs Demo.loaded !! id (mkTab "tab-1" "https://example.org/")
  = Some (mkOpenTab "tab-1" Demo.newtab true)
  ∧ ∃ (r : TabData) (s' : State),
      navigateAwayFromPage (Demo.env_on Demo.tabA) (mkTab "tab-1" "https://example.org/")
        "navigation" Demo.loaded
      = (Return tt, s')
      ∧ page r = Some "NEW_TAB"
      ∧ highlights_size r = Some 3
      ∧ total_history_size (tabData s') = Some 100.
Proof.
  split; [reflexivity|].
  destruct (flush_context (Demo.env_on Demo.tabA) (mkTab "tab-1" "https://example.org/")
              "navigation" Demo.loaded (mkOpenTab "tab-1" Demo.newtab true) eq_refl)
    as (r & s' & h & Hrun & Hnote & Hpg & Hhs & _ & _ & _ & _ & Htd).
  exists r, s'. split_and!; [exact Hrun | exact Hpg | | by rewrite Htd].
  vm_compute in Hrun. injection Hrun as <-.
  vm_compute in Hnote. by injection Hnote as <-.
Defined.

(** ** Route changes and navigation *)

(** X9. A route change that is not the first load, for the active tab
    showing a tracked URL, ends the live session and starts another one:
    one record is notified, with the unload reason ["route_change"] unless
    a SEARCH or CLICK had set one, and the new session has the load reason
    ["newtab"], the tab's URL and id, a newly read start time and a newly
    generated session id. *)
Theorem handleRouteChange_restarts (e : Env) (tab a : Tab) (s : State) (ot : OpenTab) :
  isActivityStreamsURL e (tab_url tab) = true →
  activeTab e = Some a →
  id a = id tab →
  openTabs s !! id tab = Some ot →
  ∃ (r : TabData) (s' : State) (i k : nat),
    handleRouteChange e tab false s = (Return tt, s')
    ∧ notified s' = notified s ++ [session_note r]
    ∧ unload_reason r = Some (or_str (unload_reason (tabData s)) "route_change")
    ∧ load_reason (tabData s') = Some "newtab"
    ∧ url (tabData s') = Some (tab_url tab)
    ∧ tab_id (tabData s') = Some (id tab)
    ∧ (nowCalls s ≤ i)%nat ∧ nowCalls s' = S i
    ∧ start_time (tabData s') = Some (absPerfNow e i)
    ∧ (uuidCalls s ≤ k)%nat ∧ uuidCalls s' = S k
    ∧ session_id (tabData s') = Some (uuid e k)
    ∧ openTabs s' = <[id tab := mkOpenTab (ot_tab ot) (tab_url tab) true]> (openTabs s).
Proof.
  intros Has Ha Hid Hot.
  destruct (navigateAwayFromPage_spec e tab "route_change" s ot Hot)
    as (r & nc & uc & Hflush & [Hnc Huc] & _ & Hun & _).
  unfold handleRouteChange. cbn [negb]. cbv iota.
  rewrite (bind_Return _ _ _ _ _ Hflush).
  rewrite (logReady_active e tab a _ Has Ha Hid). cbn [tabData]. cbn.
  unfold modifyTabData, getTabData, setTabData, mbind at 1 2, M_bind at 1 2. cbn.
  erewrite logActivate_tracked; [|exact Has|exact Hot].
  exists r. eexists. exists nc, uc. split; [reflexivity|]. by cbn.
Qed.

Lemma handleRouteChange_restarts_witness :
  isActivityStreamsURL (Demo.env_on Demo.tabA) (tab_url Demo.tabA) = true
  ∧ activeTab (Demo.env_on Demo.tabA) = Some Demo.tabA
  ∧ id Demo.tabA = id Demo.tabA
  ∧ openTabs Demo.loaded !! id Demo.tabA = Some (mkOpenTab "tab-1" Demo.newtab true)
  ∧ ∃ (r : TabData) (s' : State),
      handleRouteChange (Demo.env_on Demo.tabA) Demo.tabA false Demo.loaded
      = (Return tt, s')
      ∧ notified s' = notified Demo.loaded ++ [session_note r]
      ∧ unload_reason r = Some "route_change"
      ∧ load_reason (tabData s') = Some "newtab".
Proof.
  do 4 (split; [reflexivity|]).
  destruct (handleRouteChange_restarts (Demo.env_on Demo.tabA) Demo.tabA Demo.tabA
              Demo.loaded (mkOpenTab "tab-1" Demo.newtab true)
              eq_refl eq_refl eq_refl eq_refl)
    as (r & s' & i & k & Hrun & Hnote & Hun & Hlr & _).
  exists r, s'. by split_and!.
Defined.

(** X10. A route change for a tab that has no row throws in the flush and
    goes no further: no session is started and the state is as it was. A
    route change that is the first load does nothing. *)
Theorem handleRouteChange_guards (e : Env) (tab : Tab) (s : State) :
  openTabs s !! id tab = None →
  handleRouteChange e tab false s = (Throw TypeError, s)
  ∧ handleRouteChange e tab true s = (Return tt, s).
Proof.
  intros Hot. split; [|done]. unfold handleRouteChange. cbn [negb]. cbv iota.
  by rewrite (bind_Throw _ _ _ _ _ (navigateAwayFromPage_unregistered e tab _ s Hot)).
Qed.

Lemma handleRouteChange_guards_witness :
  openTabs Demo.loaded !! id Demo.tabB = None
  ∧ handleRouteChange (Demo.env_on Demo.tabB) Demo.tabB false Demo.loaded
    = (Throw TypeError, Demo.loaded).
Proof.
  split; [reflexivity|].
  exact (proj1 (handleRouteChange_guards (Demo.env_on Demo.tabB) Demo.tabB Demo.loaded
                  eq_refl)).
Defined.

Lemma logReady_untracked (e : Env) (tab : Tab) (s : State) :
  isActivityStreamsURL e (tab_url tab) = false →
  logReady e tab s = logReady_replaced e tab s.
Proof. intros Has. unfold logReady. by rewrite Has. Qed.

(** X11. Navigation away. When a URL that is not tracked has loaded into
    the tab of the live session, whose stored URL is tracked, [logReady]
    ends the session: it notifies one record, with the unload reason
    ["navigation"] unless a SEARCH or CLICK had set one and with the page
    of the stored URL, and resets the session state. The table of open
    tabs is untouched, and a second [logReady] for the same tab notifies
    nothing more. *)
Theorem logReady_navigation (e : Env) (tab : Tab) (s : State) (ot : OpenTab) :
  isActivityStreamsURL e (tab_url tab) = false →
  tab_id (tabData s) = Some (id tab) →
  openTabs s !! id tab = Some ot →
  isActivityStreamsURL e (ot_url ot) = true →
  ∃ (r : TabData) (s' : State),
    logReady e tab s = (Return tt, s')
    ∧ notified s' = notified s ++ [session_note r]
    ∧ unload_reason r = Some (or_str (unload_reason (tabData s)) "navigation")
    ∧ page r = Some (page_of e (ot_url ot))
    ∧ tabData s' = cleared (tabData s)
    ∧ openTabs s' = openTabs s
    ∧ logReady e tab s' = (Return tt, s').
Proof.
  intros Has Hti Hot Hstored.
  destruct (navigateAwayFromPage_record e tab "navigation" s ot Hot)
    as (r & nc & uc & Hflush & _ & _ & _ & _ & Hpg & _ & Hun & _).
  exists r. eexists. rewrite !(logReady_untracked _ _ _ Has).
  unfold logReady_replaced at 1. munfold. cbn.
  rewrite bool_decide_eq_true_2 by done. rewrite Hot, Hstored, Hflush.
  split; [reflexivity|]. cbn. by split_and!.
Qed.

Lemma logReady_navigation_witness :
  isActivityStreamsURL (Demo.env_on (mkTab "tab-1" "https://example.org/"))
    "https://example.org/" = false
  ∧ tab_id (tabData Demo.loaded) = Some "tab-1"
  ∧ openTabs Demo.loaded !! "tab-1" = Some (mkOpenTab "tab-1" Demo.newtab true)
  ∧ isActivityStreamsURL (Demo.env_on (mkTab "tab-1" "https://example.org/"))
      Demo.newtab = true
  ∧ ∃ (r : TabData) (s' : State),
      logReady (Demo.env_on (mkTab "tab-1" "https://example.org/"))
        (mkTab "tab-1" "https://example.org/") Demo.loaded
      = (Return tt, s')
      ∧ notified s' = notified Demo.loaded ++ [session_note r]
      ∧ unload_reason r = Some "navigation"
      ∧ page r = Some "NEW_TAB".
Proof.
  do 4 (split; [reflexivity|]).
  destruct (logReady_navigation (Demo.env_on (mkTab "tab-1" "https://example.org/"))
              (mkTab "tab-1" "https://example.org/") Demo.loaded
              (mkOpenTab "tab-1" Demo.newtab true) eq_refl eq_refl eq_refl eq_refl)
    as (r & s' & Hrun & Hnote & Hun & Hpg & _).
  exists r, s'. by split_and!.
Defined.

(** X12. A page that is not tracked, loading in a tab that is not the tab
    of the live session, or that has no row, or whose stored URL is not
    tracked, is none of the tracker's business: [logReady] returns the
    state as it was. *)
Theorem logReady_elsewhere (e : Env) (tab : Tab) (s : State) :
  isActivityStreamsURL e (tab_url tab) = false →
  tab_id (tabData s) ≠ Some (id tab)
  ∨ openTabs s !! id tab = None
  ∨ (∃ ot, openTabs s !! id tab = Some ot ∧ isActivityStreamsURL e (ot_url ot) = false) →
  logReady e tab s = (Return tt, s).
Proof.
  intros Has Hcases. rewrite (logReady_untracked _ _ _ Has).
  unfold logReady_replaced. munfold. cbn.
  destruct Hcases as [Hne | [Hnone | (ot & Hot & Hun)]].
  - by rewrite bool_decide_eq_false_2.
  - rewrite Hnone. by case_bool_decide.
  - rewrite Hot, Hun. by case_bool_decide.
Qed.

Lemma logReady_elsewhere_witness :
  isActivityStreamsURL (Demo.env_on Demo.web) (tab_url Demo.web) = false
  ∧ tab_id (tabData Demo.loaded) ≠ Some (id Demo.web)
  ∧ logReady (Demo.env_on Demo.web) Demo.web Demo.loaded = (Return tt, Demo.loaded).
Proof.
  assert (tab_id (tabData Demo.loaded) ≠ Some (id Demo.web)) as Hne.
  { vm_compute. discriminate. }
  split; [reflexivity|]. split; [exact Hne|].
  apply (logReady_elsewhere (Demo.env_on Demo.web) Demo.web Demo.loaded eq_refl).
  by left.
Defined.

(** ** Focus changes *)

(** X13. Deactivation, then close, flushes once. When a tab showing a
    tracked URL loses the focus to another tab, [logDeactivate] notifies
    one record, with the unload reason ["unfocus"] unless a SEARCH or CLICK
    had set one, resets the session state and marks the tab's row
    inactive; the [logClose] of that tab that follows, whichever tab is
    then active, notifies nothing and changes nothing. *)
Theorem logDeactivate_then_logClose (e : Env) (tab a : Tab) (s : State) (ot : OpenTab) :
  activeTab e = Some a →
  isActivityStreamsURL e (tab_url tab) = true →
  openTabs s !! id tab = Some ot →
  ∃ (r : TabData) (s' : State),
    logDeactivate e tab s = (Return tt, s')
    ∧ notified s' = notified s ++ [session_note r]
    ∧ unload_reason r = Some (or_str (unload_reason (tabData s)) "unfocus")
    ∧ tabData s' = cleared (tabData s)
    ∧ openTabs s' = <[id tab := mkOpenTab (ot_tab ot) (ot_url ot) false]> (openTabs s)
    ∧ ∀ e' : Env,
        isActivityStreamsURL e' (tab_url tab) = true →
        logClose e' tab s' = (Return tt, s').
Proof.
  intros Ha Has Hot.
  destruct (navigateAwayFromPage_spec e tab "unfocus" s ot Hot)
    as (r & nc & uc & Hflush & _ & _ & Hun & _).
  exists r. eexists. unfold logDeactivate. rewrite Ha, Has.
  rewrite (bind_Return _ _ _ _ _ Hflush).
  set (s1 := mkState _ _ _ _ _).
  assert (openTabs s1 !! id tab = Some ot) as Hot1 by exact Hot.
  rewrite (bind_Return _ _ _ _ _ (openTab_of_Some _ _ _ Hot1)).
  munfold. subst s1. cbn. split; [reflexivity|]. cbn. split_and!; try done.
  intros e' Has'. unfold logClose. rewrite Has'.
  set (s2 := mkState _ _ _ _ _).
  assert (openTabs s2 !! id tab = Some (mkOpenTab (ot_tab ot) (ot_url ot) false))
    as Hot2 by apply lookup_insert_eq.
  by rewrite (bind_Return _ _ _ _ _ (openTab_of_Some _ _ _ Hot2)).
Qed.

Lemma logDeactivate_then_logClose_witness :
  activeTab (Demo.env_on Demo.web) = Some Demo.web
  ∧ isActivityStreamsURL (Demo.env_on Demo.web) (tab_url Demo.tabA) = true
  ∧ openTabs Demo.loaded !! id Demo.tabA = Some (mkOpenTab "tab-1" Demo.newtab true)
  ∧ ∃ (r : TabData) (s' : State),
      logDeactivate (Demo.env_on Demo.web) Demo.tabA Demo.loaded = (Return tt, s')
      ∧ notified s' = notified Demo.loaded ++ [session_note r]
      ∧ unload_reason r = Some "unfocus"
      ∧ logClose Demo.env Demo.tabA s' = (Return tt, s').
Proof.
  do 3 (split; [reflexivity|]).
  destruct (logDeactivate_then_logClose (Demo.env_on Demo.web) Demo.tabA Demo.web
              Demo.loaded (mkOpenTab "tab-1" Demo.newtab true) eq_refl eq_refl eq_refl)
    as (r & s' & Hrun & Hnote & Hun & _ & _ & Hclose).
  exists r, s'. split_and!; [exact Hrun | exact Hnote | exact Hun | by apply Hclose].
Defined.

(** X14. An activation of a tab that shows a tracked URL but has no row
    throws, and only after it has re-initialised the session state for
    that tab and read the clock: the state left by the throw has the tab's
    id and URL and a start time. Nothing is notified. *)
Theorem logActivate_without_row (e : Env) (tab : Tab) (s : State) :
  isActivityStreamsURL e (tab_url tab) = true →
  openTabs s !! id tab = None →
  ∃ s' : State,
    logActivate e tab s = (Throw TypeError, s')
    ∧ tab_id (tabData s') = Some (id tab)
    ∧ url (tabData s') = Some (tab_url tab)
    ∧ load_reason (tabData s') = Some (or_str (load_reason (tabData s)) "focus")
    ∧ start_time (tabData s') = Some (absPerfNow e (nowCalls s))
    ∧ nowCalls s' = S (nowCalls s)
    ∧ openTabs s' = openTabs s
    ∧ notified s' = notified s.
Proof.
  intros Has Hot. unfold logActivate. rewrite Has.
  unfold mbind at 1, M_bind at 1, getTabData at 1.
  rewrite (bind_Return _ _ _ _ _ (_initTabSession_spec e tab _ s)).
  munfold. cbn. rewrite Hot. eexists. split; [reflexivity|]. by cbn.
Qed.

Lemma logActivate_without_row_witness :
  isActivityStreamsURL Demo.env (tab_url Demo.tabB) = true
  ∧ openTabs Demo.unfocused !! id Demo.tabB = None
  ∧ ∃ s' : State,
      logActivate Demo.env Demo.tabB Demo.unfocused = (Throw TypeError, s')
      ∧ tab_id (tabData s') = Some "tab-2"
      ∧ is_Some (start_time (tabData s')).
Proof.
  do 2 (split; [reflexivity|]).
  destruct (logActivate_without_row Demo.env Demo.tabB Demo.unfocused eq_refl eq_refl)
    as (s' & Hrun & Hti & _ & _ & Hst & _).
  exists s'. split_and!; [exact Hrun | exact Hti | by rewrite Hst].
Defined.

(** X15. An activation delivered twice is harmless. The second activation
    of a tab showing a tracked URL notifies nothing, keeps the session id,
    the URL, the tab id and the load reason of the first, leaves the table
    of open tabs as the first left it, and only reads the clock again for
    the start time. *)
Theorem logActivate_twice (e : Env) (tab : Tab) (s : State) (ot : OpenTab) :
  isActivityStreamsURL e (tab_url tab) = true →
  openTabs s !! id tab = Some ot →
  uuid e (uuidCalls s) ≠ "" →
  ∃ s1 s2 : State,
    logActivate e tab s = (Return tt, s1)
    ∧ logActivate e tab s1 = (Return tt, s2)
    ∧ notified s2 = notified s
    ∧ session_id (tabData s2) = session_id (tabData s1)
    ∧ url (tabData s2) = url (tabData s1)
    ∧ tab_id (tabData s2) = tab_id (tabData s1)
    ∧ load_reason (tabData s2) = load_reason (tabData s1)
    ∧ openTabs s2 = openTabs s1
    ∧ uuidCalls s2 = uuidCalls s1
    ∧ start_time (tabData s2) = Some (absPerfNow e (S (nowCalls s))).
Proof.
  intros Has Hot Huuid.
  rewrite (logActivate_tracked e tab s ot Has Hot). do 2 eexists.
  split; [reflexivity|].
  erewrite logActivate_tracked; [|exact Has|by cbn; rewrite lookup_insert_eq].
  split; [reflexivity|]. cbn.
  assert (Some (or_str (Some (or_str (load_reason (tabData s)) "focus")) "focus")
          = Some (or_str (load_reason (tabData s)) "focus")) as Hlr.
  { apply or_str_set. by apply or_str_truthy. }
  unfold initialised.
  destruct (truthy_str (session_id (tabData s))) eqn:Hs; cbn.
  - rewrite Hs. cbn. split_and!; try done. by rewrite insert_insert_eq.
  - rewrite (proj2 (String.eqb_neq _ _) Huuid). cbn. split_and!; try done.
    by rewrite insert_insert_eq.
Qed.

Lemma logActivate_twice_witness :
  isActivityStreamsURL Demo.env (tab_url Demo.tabA) = true
  ∧ openTabs Demo.loaded !! id Demo.tabA = Some (mkOpenTab "tab-1" Demo.newtab true)
  ∧ uuid Demo.env (uuidCalls Demo.loaded) ≠ ""
  ∧ ∃ s1 s2 : State,
      logActivate Demo.env Demo.tabA Demo.loaded = (Return tt, s1)
      ∧ logActivate Demo.env Demo.tabA s1 = (Return tt, s2)
      ∧ notified s2 = notified Demo.loaded
      ∧ session_id (tabData s2) = session_id (tabData s1).
Proof.
  assert (uuid Demo.env (uuidCalls Demo.loaded) ≠ "") as Hne.
  { vm_compute. discriminate. }
  do 2 (split; [reflexivity|]). split; [exact Hne|].
  destruct (logActivate_twice Demo.env Demo.tabA Demo.loaded
              (mkOpenTab "tab-1" Demo.newtab true) eq_refl eq_refl Hne)
    as (s1 & s2 & H1 & H2 & Hn & Hsi & _).
  by exists s1, s2.
Defined.

(** ** A whole session *)

(** The session state after [onOpen]. *)
Lemma onOpen_spec (e : Env) (tab : Tab) (s : State) :
  onOpen e tab s
  = (Return tt,
     mkState
       (set_session_id (Some (uuid e (uuidCalls s)))
          (match store e with
           | Some currentState =>
               set_total_bookmarks (PlacesStats_bookmarksSize currentState)
                 (set_total_history_size (PlacesStats_historySize currentState)
                    (set_tab_id (Some (id tab)) (tabData s)))
           | None => set_tab_id (Some (id tab)) (tabData s)
           end))
       (<[id tab := mkOpenTab (id tab) (tab_url tab) true]> (openTabs s))
       (notified s) (nowCalls s) (S (uuidCalls s))).
Proof. unfold onOpen. munfold. cbn. by destruct (store e). Qed.

(** X16. A whole session. From a state without a live session, a tab is
    opened on a tracked URL, becomes ready while it is the active tab, and
    then loses the focus to another tab. Exactly one record is notified:
    its load reason is ["newtab"], its unload reason ["unfocus"], its
    session id the one generated when the tab was opened, its tab id and
    URL the tab's, and its duration the difference of the two readings of
    the clock, at the ready and at the deactivation. *)
Theorem open_ready_unfocus (e : Env) (tab a : Tab) (s : State) :
  isActivityStreamsURL e (tab_url tab) = true →
  truthy_str (url (tabData s)) = false →
  truthy_str (unload_reason (tabData s)) = false →
  id tab ≠ "" →
  uuid e (uuidCalls s) ≠ "" →
  absPerfNow e (nowCalls s) ≠ 0 →
  ∃ (r : TabData) (s' : State),
    run e [(Some tab, Open tab); (Some tab, Ready tab); (Some a, Deactivate tab)] s = s'
    ∧ notified s' = notified s ++ [session_note r]
    ∧ load_reason r = Some "newtab"
    ∧ unload_reason r = Some "unfocus"
    ∧ session_id r = Some (uuid e (uuidCalls s))
    ∧ tab_id r = Some (id tab)
    ∧ url r = Some (tab_url tab)
    ∧ session_duration r
      = Some (absPerfNow e (S (nowCalls s)) - absPerfNow e (nowCalls s))
    ∧ start_time r = None
    ∧ ot_active <$> openTabs s' !! id tab = Some false.
Proof.
  intros Has Hurl Hun Hid Huuid Hnow.
  assert (truthy_str (Some (id tab)) = true) as Hidt
    by by apply negb_true_iff, String.eqb_neq.
  assert (truthy_str (Some (uuid e (uuidCalls s))) = true) as Huuidt
    by by apply negb_true_iff, String.eqb_neq.
  assert (truthy_num (Some (absPerfNow e (nowCalls s))) = true) as Hnowt
    by by apply negb_true_iff, Z.eqb_neq.
  cbn [run dispatch]. rewrite onOpen_spec. cbn [snd].
  set (s1 := mkState _ _ _ _ _).
  assert (url (tabData s1) = url (tabData s)) as Hurl1 by (subst s1; cbn; by destruct (store e)).
  assert (load_reason (tabData s1) = load_reason (tabData s)) as Hlr1
    by (subst s1; cbn; by destruct (store e)).
  assert (unload_reason (tabData s1) = unload_reason (tabData s)) as Hun1
    by (subst s1; cbn; by destruct (store e)).
  assert (session_id (tabData s1) = Some (uuid e (uuidCalls s))) as Hsi1 by done.
  assert (openTabs s1 !! id tab = Some (mkOpenTab (id tab) (tab_url tab) true)) as Hot1
    by apply lookup_insert_eq.
  rewrite (logReady_active (with_activeTab (Some tab) e) tab tab s1 Has eq_refl eq_refl).
  rewrite Hurl1, Hurl. cbn [negb]. cbv iota.
  unfold modifyTabData at 1, getTabData at 1, setTabData at 1.
  unfold mbind at 1 2, M_bind at 1 2. cbv beta iota.
  set (s1' := mkState _ _ _ _ _).
  rewrite (logActivate_tracked (with_activeTab (Some tab) e) tab s1'
             (mkOpenTab (id tab) (tab_url tab) true) Has Hot1).
  cbn [snd]. set (s2 := mkState _ _ _ _ _).
  assert (openTabs s2 !! id tab = Some (mkOpenTab (id tab) (tab_url tab) true)) as Hot2
    by apply lookup_insert_eq.
  assert (tab_id (tabData s2) = Some (id tab)) as Hti2 by done.
  assert (session_id (tabData s2) = Some (uuid e (uuidCalls s))) as Hsi2.
  { subst s2 s1'. unfold initialised. cbn.
    rewrite (proj2 (String.eqb_neq _ _) Huuid). by cbn. }
  assert (start_time (tabData s2) = Some (absPerfNow e (nowCalls s))) as Hst2 by done.
  assert (load_reason (tabData s2) = Some "newtab") as Hlr2 by done.
  assert (unload_reason (tabData s2) = unload_reason (tabData s)) as Hun2.
  { subst s2 s1'. unfold initialised. cbn.
    rewrite (proj2 (String.eqb_neq _ _) Huuid). exact Hun1. }
  destruct (navigateAwayFromPage_record (with_activeTab (Some a) e) tab "unfocus" s2 _ Hot2)
    as (r & nc & uc & Hflush & _ & _ & _ & _ & _ & _ & Hunr & _ & _ & _ & Hbranch).
  rewrite Hti2, Hidt, Hst2, Hnowt in Hbranch.
  destruct Hbranch as (Htir & Hurlr & Hlrr & Hsir & _ & Hsdr & Hstr & _).
  assert (isActivityStreamsURL (with_activeTab (Some a) e) (tab_url tab) = true)
    as Has' by exact Has.
  exists r. eexists. unfold logDeactivate. cbn [activeTab with_activeTab].
  rewrite Has', (bind_Return _ _ _ _ _ Hflush).
  set (s3 := mkState _ _ _ _ _).
  assert (openTabs s3 !! id tab = Some (mkOpenTab (id tab) (tab_url tab) true)) as Hot3
    by exact Hot2.
  rewrite (bind_Return _ _ _ _ _ (openTab_of_Some _ _ _ Hot3)).
  munfold. cbn [snd]. split; [reflexivity|]. cbn [notified openTabs]. split_and!.
  - done.
  - by rewrite Hlrr.
  - by rewrite Hunr, Hun2, or_str_falsy.
  - by rewrite Hsir.
  - by rewrite Htir.
  - by rewrite Hurlr.
  - exact Hsdr.
  - exact Hstr.
  - by rewrite lookup_insert_eq.
Qed.

Lemma open_ready_unfocus_witness :
  isActivityStreamsURL Demo.env (tab_url Demo.tabA) = true
  ∧ truthy_str (url (tabData initState)) = false
  ∧ truthy_str (unload_reason (tabData initState)) = false
  ∧ id Demo.tabA ≠ ""
  ∧ uuid Demo.env (uuidCalls initState) ≠ ""
  ∧ absPerfNow Demo.env (nowCalls initState) ≠ 0
  ∧ ∃ r : TabData,
      notified Demo.unfocused = notified initState ++ [session_note r]
      ∧ load_reason r = Some "newtab"
      ∧ unload_reason r = Some "unfocus"
      ∧ session_id r = Some "a-uuid"
      ∧ session_duration r = Some 10.
Proof.
  assert (id Demo.tabA ≠ "") as H1 by (vm_compute; discriminate).
  assert (uuid Demo.env (uuidCalls initState) ≠ "") as H2 by (vm_compute; discriminate).
  assert (absPerfNow Demo.env (nowCalls initState) ≠ 0) as H3 by (vm_compute; discriminate).
  do 3 (split; [reflexivity|]). do 3 (split; [assumption|]).
  destruct (open_ready_unfocus Demo.env Demo.tabA Demo.web initState
              eq_refl eq_refl eq_refl H1 H2 H3)
    as (r & s' & Hrun & Hnote & Hlr & Hun & Hsi & _ & _ & Hsd & _).
  exists r. unfold Demo.unfocused. rewrite Hrun. by split_and!.
Defined.

(** ** Invariants of every run *)

Lemma session_records_snoc_payload (ns : list Notification) (t : string) (p : Obj) :
  session_records (ns ++ [mkNotification t (JsonPayload p)]) = session_records ns.
Proof. unfold session_records. rewrite omap_app. cbn. by rewrite app_nil_r. Qed.

Lemma session_records_snoc_session (ns : list Notification) (r : TabData) :
  session_records (ns ++ [session_note r]) = session_records ns ++ [r].
Proof. unfold session_records. by rewrite omap_app. Qed.

Lemma or_str_elem_of (a : option string) (b : string) (allowed fallback : list string) :
  (∀ x, a = Some x → x ∈ allowed) →
  b ∈ fallback →
  or_str a b ∈ allowed ++ fallback.
Proof.
  intros Ha Hb. unfold or_str. rewrite elem_of_app.
  destruct a as [x|]; [|by right].
  destruct (String.eqb x ""); [by right|]. left. by apply Ha.
Qed.

(** A default that is itself allowed. *)
Lemma or_str_elem_of_same (a : option string) (b : string) (allowed : list string) :
  (∀ x, a = Some x → x ∈ allowed) →
  b ∈ allowed →
  or_str a b ∈ allowed.
Proof.
  intros Ha Hb. unfold or_str. destruct a as [x|]; [|done].
  destruct (String.eqb x ""); [done|]. by apply Ha.
Qed.

Ltac elem_of_concrete := by repeat constructor.

Lemma truthy_str_is_Some (o : option string) : truthy_str o = true → is_Some o.
Proof. by destruct o; [eexists|]. Qed.

Lemma session_ok_cleared (td : TabData) : session_ok (cleared td).
Proof.
  unfold session_ok, cleared. cbn.
  split_and!; try (by intros [? ?]); by intros ? [=].
Qed.

Section TrackerOk.
Context (e : Env).

Lemma navigateAwayFromPage_tracker_ok (tab : Tab) (reason : string) :
  reason ∈ flush_reasons →
  keeps (tracker_ok (uuid e)) (navigateAwayFromPage e tab reason).
Proof.
  intros Hreason s Hok.
  destruct (openTabs s !! id tab) as [ot|] eqn:Hot;
    [|by rewrite navigateAwayFromPage_unregistered].
  destruct Hok as (Hs & Hr & Htab & idxs & Hids & Hnd & Hlt & Hcur).
  destruct (navigateAwayFromPage_record e tab reason s ot Hot)
    as (r & nc & uc & -> & Hac & Hci & _ & _ & Hpg & _ & Hun & Hhs & _ & _ & Hbranch).
  destruct Hs as (Hs1 & Hs2 & Hs3 & Hs4).
  cbn [snd]. split_and!; cbn [tabData notified uuidCalls].
  - apply session_ok_cleared.
  - rewrite session_records_snoc_session. apply Forall_app. split; [done|].
    apply Forall_singleton. unfold record_ok.
    rewrite Hac, Hci, Hpg, Hhs, Hun.
    assert (or_str (unload_reason (tabData s)) reason ∈ user_reasons ++ flush_reasons)
      as Hu by by apply or_str_elem_of.
    destruct (truthy_str (tab_id (tabData s))) eqn:Hti.
    + destruct Hbranch as (-> & -> & -> & -> & _).
      pose proof (truthy_str_is_Some _ Hti) as Hti'.
      split_and!; try done; try (by eexists); eauto.
      intros Hurl. by apply Hs2.
    + destruct Hbranch as (-> & -> & -> & _ & _ & _ & Hsi).
      assert (or_str (load_reason (tabData s)) "none" ∈ load_reasons) as Hl
        by (apply or_str_elem_of_same; [done | elem_of_concrete]).
      assert (is_Some (session_id r)) as Hsir.
      { destruct (truthy_str (session_id (tabData s))) eqn:Hsit.
        - destruct Hsi as [-> _]. by apply truthy_str_is_Some.
        - destruct Hsi as [-> _]. by eexists. }
      split_and!; try done; try (by eexists); eauto.
      by intros l [= <-].
  - unfold ids_ok. cbn [tabData notified uuidCalls]. split; [by intros [? ?]|].
    rewrite session_records_snoc_session.
    assert (∃ j, session_id r = Some (uuid e j) ∧ (j < uc)%nat ∧ (j ∉ idxs)
                 ∧ (uuidCalls s ≤ uc)%nat) as (j & Hj & Hjlt & Hjnew & Huc).
    { destruct (truthy_str (tab_id (tabData s))) eqn:Hti.
      - destruct Hbranch as (_ & _ & _ & -> & -> & _).
        destruct (Htab (truthy_str_is_Some _ Hti)) as [u Hu'].
        destruct (Hcur u Hu') as (j & -> & ? & ?). by exists j.
      - destruct Hbranch as (_ & _ & _ & _ & _ & _ & Hsi).
        destruct (truthy_str (session_id (tabData s))) eqn:Hsit.
        + destruct Hsi as [-> ->].
          destruct (truthy_str_is_Some _ Hsit) as [u Hu'].
          destruct (Hcur u Hu') as (j & -> & ? & ?). by exists j.
        + destruct Hsi as [-> ->]. exists (uuidCalls s).
          split; [done|]. split; [lia|]. split; [|lia].
          intros Hin. rewrite Forall_forall in Hlt. specialize (Hlt _ Hin). cbn in Hlt. lia. }
    exists (idxs ++ [j]). split_and!.
    + rewrite !fmap_app, Hids. cbn. by rewrite Hj.
    + apply NoDup_app. split_and!; [done | | apply NoDup_singleton].
      intros x Hx ->%list_elem_of_singleton. done.
    + apply Forall_app. split; [|by apply Forall_singleton].
      eapply Forall_impl; [exact Hlt|]. cbn. lia.
    + unfold cleared. cbn. by intros u [=].
Qed.

Lemma logActivate_tracker_ok (tab : Tab) :
  keeps (tracker_ok (uuid e)) (logActivate e tab).
Proof.
  intros s Hok. unfold logActivate.
  destruct (isActivityStreamsURL e (tab_url tab)); [|done].
  destruct Hok as ((Hs1 & Hs2 & Hs3 & Hs4) & Hr & Htab & idxs & Hids & Hnd & Hlt & Hcur).
  unfold mbind at 1, M_bind at 1, getTabData at 1.
  rewrite (bind_Return _ _ _ _ _ (_initTabSession_spec e tab _ s)).
  assert (or_str (load_reason (tabData s)) "focus" ∈ load_reasons) as Hl.
  { apply or_str_elem_of_same; [done | elem_of_concrete]. }
  assert (∀ (ots : gmap string OpenTab),
            tracker_ok (uuid e)
              (mkState
                 (set_start_time (Some (absPerfNow e (nowCalls s)))
                    (initialised e tab (or_str (load_reason (tabData s)) "focus") s))
                 ots (notified s) (S (nowCalls s))
                 (if truthy_str (session_id (tabData s)) then uuidCalls s
                  else S (uuidCalls s)))) as Hok.
  { intros ots. unfold tracker_ok, session_ok, ids_ok, initialised.
    cbn [tabData notified uuidCalls].
    destruct (truthy_str (session_id (tabData s))) eqn:Hsit; cbn.
    - pose proof (truthy_str_is_Some _ Hsit) as Hsi.
      split_and!; try done; try (by eexists); try (by intros _; split_and!; eexists);
        try (by intros l [= <-]).
      all: exists idxs; by split_and!.
    - split_and!; try done; try (by eexists); try (by intros _; split_and!; eexists);
        try (by intros l [= <-]).
      all: exists idxs; split_and!; try done.
      + eapply Forall_impl; [exact Hlt|]. cbn. lia.
      + intros u [= <-]. exists (uuidCalls s).
        split; [done|]. split; [lia|].
        intros Hin. rewrite Forall_forall in Hlt. specialize (Hlt _ Hin).
        cbn in Hlt. lia. }
  munfold. cbn.
  destruct (openTabs s !! id tab) as [ot|]; cbn; [|apply Hok].
  rewrite lookup_insert_eq. cbn. apply Hok.
Qed.

Lemma onOpen_tracker_ok (tab : Tab) : keeps (tracker_ok (uuid e)) (onOpen e tab).
Proof.
  intros s ((Hs1 & Hs2 & Hs3 & Hs4) & Hr & Htab & idxs & Hids & Hnd & Hlt & Hcur).
  rewrite onOpen_spec. unfold tracker_ok, session_ok, ids_ok.
  cbn [snd tabData notified uuidCalls].
  assert (∀ i, i ∈ idxs → (i < uuidCalls s)%nat) as Hlt'
    by (by apply Forall_forall).
  destruct (store e) as [currentState|]; cbn.
  all: split_and!; try done; try (by eexists).
  all: try (intros Hst; destruct (Hs1 Hst) as (_ & ? & ? & _);
            split_and!; first [assumption | by eexists]).
  all: try (intros Hu; destruct (Hs2 Hu) as (_ & ?);
            split_and!; first [assumption | by eexists]).
  all: exists idxs; split_and!; try done.
  all: try (eapply Forall_impl; [exact Hlt|]; cbn; lia).
  all: intros u [= <-]; exists (uuidCalls s); split; [done|]; split; [lia|];
    intros Hin; specialize (Hlt' _ Hin); lia.
Qed.

Lemma handleUserEvent_tracker_ok (payload : Obj) :
  keeps (tracker_ok (uuid e)) (handleUserEvent e payload).
Proof.
  intros s Hok. destruct (activeTab e) as [a|] eqn:Ha;
    [|by rewrite handleUserEvent_no_active_tab].
  rewrite (handleUserEvent_active e payload a s Ha).
  destruct Hok as ((Hs1 & Hs2 & Hs3 & Hs4) & Hr & Hi1 & Hi2).
  unfold tracker_ok, ids_ok in *. cbn [snd tabData notified uuidCalls].
  rewrite session_records_snoc_payload.
  destruct (payload !! "event") as [[| |b|z|ev]|]; try done.
  destruct (bool_decide (ev = "SEARCH")) eqn:H1.
  - apply bool_decide_eq_true in H1 as ->. cbn.
    split_and!; try done. unfold session_ok. cbn. split_and!; try done.
    intros u [= <-]. elem_of_concrete.
  - destruct (bool_decide (ev = "CLICK")) eqn:H2; cbn; [|done].
    apply bool_decide_eq_true in H2 as ->.
    split_and!; try done. unfold session_ok. cbn. split_and!; try done.
    intros u [= <-]. elem_of_concrete.
Qed.

Lemma modify_load_reason_tracker_ok (l : string) :
  l ∈ load_reasons →
  keeps (tracker_ok (uuid e)) (modifyTabData (set_load_reason (Some l))).
Proof.
  intros Hl s ((Hs1 & Hs2 & Hs3 & Hs4) & Hr & Hi1 & Hi2). munfold.
  unfold tracker_ok, session_ok, ids_ok in *. cbn.
  split_and!; try done.
  - intros Hst. destruct (Hs1 Hst) as (? & ? & _ & ?).
    split_and!; first [assumption | by eexists].
  - intros Hu. destruct (Hs2 Hu) as (? & _).
    split_and!; first [assumption | by eexists].
  - by intros ? [= <-].
Qed.

Lemma setOpenTabs_tracker_ok (ots : gmap string OpenTab) :
  keeps (tracker_ok (uuid e)) (setOpenTabs ots).
Proof. by intros s Hs. Qed.

Lemma notify_payload_tracker_ok (t : string) (p : Obj) :
  keeps (tracker_ok (uuid e)) (notifyObservers t (JsonPayload p)).
Proof.
  intros s (Hs & Hr & Hi1 & Hi2). unfold tracker_ok, ids_ok in *. munfold. cbn.
  by rewrite session_records_snoc_payload.
Qed.
End TrackerOk.

Ltac tracker_ok_auto :=
  keeps_split;
  try (apply modify_load_reason_tracker_ok; elem_of_concrete);
  try (apply navigateAwayFromPage_tracker_ok; elem_of_concrete);
  auto using logActivate_tracker_ok, setOpenTabs_tracker_ok, notify_payload_tracker_ok
    with keeps.

Lemma logReady_replaced_tracker_ok (e : Env) (tab : Tab) :
  keeps (tracker_ok (uuid e)) (logReady_replaced e tab).
Proof. unfold logReady_replaced. tracker_ok_auto. Qed.

Lemma logReady_tracker_ok (e : Env) (tab : Tab) :
  keeps (tracker_ok (uuid e)) (logReady e tab).
Proof.
  pose proof (logReady_replaced_tracker_ok e tab). unfold logReady. tracker_ok_auto.
Qed.

Lemma dispatch_tracker_ok (e : Env) (ev : Event) :
  keeps (tracker_ok (uuid e)) (dispatch e ev).
Proof.
  pose proof (logReady_tracker_ok e) as Hready.
  destruct ev; cbn [dispatch].
  - apply onOpen_tracker_ok.
  - apply Hready.
  - unfold logPageShow. tracker_ok_auto.
  - apply logActivate_tracker_ok.
  - unfold logDeactivate. tracker_ok_auto.
  - unfold logClose. tracker_ok_auto.
  - apply handleUserEvent_tracker_ok.
  - unfold handleUndesiredEvent. tracker_ok_auto.
  - unfold handlePerformanceEvent. tracker_ok_auto.
  - unfold handleRouteChange. tracker_ok_auto.
Qed.

Lemma initState_tracker_ok (gen : nat → string) : tracker_ok gen initState.
Proof.
  unfold tracker_ok, session_ok, ids_ok, initState. cbn.
  split_and!; try (by intros [? ?]); try (by intros ? [=]); try (by constructor).
  exists []. split_and!; try done; try (by constructor); by intros ? [=].
Qed.

Lemma run_tracker_ok (e : Env) (evs : list (option Tab * Event)) (s : State) :
  tracker_ok (uuid e) s → tracker_ok (uuid e) (run e evs s).
Proof.
  revert s. induction evs as [|[a ev] evs IH]; intros s Hs; cbn [run]; [done|].
  apply IH. by apply (dispatch_tracker_ok (with_activeTab a e) ev).
Qed.

(** X17. The shape of the session state. After any run of the tracker
    from its initial state: a session state with a start time also has a
    tab id, a URL, a load reason and a session id; one with a tab id has a
    session id; its unload reason, if any, is ["search"] or ["click"]; and
    its load reason, if any, is ["newtab"], ["refresh"], ["focus"] or
    ["none"]. *)
Theorem run_session_shape (e : Env) (evs : list (option Tab * Event)) :
  (is_Some (start_time (tabData (run e evs initState))) →
   is_Some (tab_id (tabData (run e evs initState)))
   ∧ is_Some (url (tabData (run e evs initState)))
   ∧ is_Some (load_reason (tabData (run e evs initState)))
   ∧ is_Some (session_id (tabData (run e evs initState))))
  ∧ (is_Some (tab_id (tabData (run e evs initState))) →
     is_Some (session_id (tabData (run e evs initState))))
  ∧ (∀ u, unload_reason (tabData (run e evs initState)) = Some u →
          u = "search" ∨ u = "click")
  ∧ (∀ l, load_reason (tabData (run e evs initState)) = Some l →
          l = "newtab" ∨ l = "refresh" ∨ l = "focus" ∨ l = "none").
Proof.
  destruct (run_tracker_ok e evs initState (initState_tracker_ok _))
    as ((Hs1 & _ & Hs3 & Hs4) & _ & Htab & _).
  split_and!; try done.
  - intros u Hu. specialize (Hs3 u Hu). unfold user_reasons in Hs3.
    rewrite !elem_of_cons in Hs3. destruct Hs3 as [?|[?|[]%elem_of_nil]]; auto.
  - intros l Hl. specialize (Hs4 l Hl). unfold load_reasons in Hs4.
    rewrite !elem_of_cons in Hs4.
    destruct Hs4 as [?|[?|[?|[?|[]%elem_of_nil]]]]; auto.
Qed.

(** X18. The shape of the records. Every record of a completed session
    that any run of the tracker notifies has the action of a session, a
    tab id, a session id, a client id, a page and a highlights size; its
    unload reason is one of ["search"], ["click"], ["refresh"],
    ["navigation"], ["unfocus"], ["close"] and ["route_change"]; its load
    reason, if it has one, is ["newtab"], ["refresh"], ["focus"] or
    ["none"], never ["back"] or ["navigation"]; and a record that has a URL
    has a load reason. *)
Theorem run_records_shape (e : Env) (evs : list (option Tab * Event)) (r : TabData) :
  r ∈ session_records (notified (run e evs initState)) →
  action r = Some "activity_stream_session"
  ∧ is_Some (tab_id r)
  ∧ is_Some (session_id r)
  ∧ is_Some (client_id r)
  ∧ is_Some (page r)
  ∧ is_Some (highlights_size r)
  ∧ (∃ u, unload_reason r = Some u
          ∧ u ∈ ["search"; "click"; "refresh"; "navigation"; "unfocus"; "close";
                 "route_change"])
  ∧ (∀ l, load_reason r = Some l → l ∈ ["newtab"; "refresh"; "focus"; "none"])
  ∧ (is_Some (url r) → is_Some (load_reason r)).
Proof.
  intros Hr.
  destruct (run_tracker_ok e evs initState (initState_tracker_ok _)) as (_ & Hrs & _).
  rewrite Forall_forall in Hrs. exact (Hrs r Hr).
Qed.

Lemma run_records_shape_witness :
  mkTabData (Some "activity_stream_session") (Some "client-0") (Some "1.0.0")
    (Some "en-US") (Some "NEW_TAB") (Some "a-uuid") None (Some Demo.newtab)
    (Some "tab-1") (Some "newtab") (Some "unfocus") None (Some 10) (Some 3) (Some 100)
    (Some 7)
  ∈ session_records
      (notified
         (run Demo.env
            [(Some Demo.tabA, Open Demo.tabA); (Some Demo.tabA, Ready Demo.tabA);
             (Some Demo.web, Deactivate Demo.tabA)] initState))
  ∧ is_Some (Some "a-uuid")
  ∧ is_Some (Some "tab-1").
Proof.
  assert (mkTabData (Some "activity_stream_session") (Some "client-0") (Some "1.0.0")
            (Some "en-US") (Some "NEW_TAB") (Some "a-uuid") None (Some Demo.newtab)
            (Some "tab-1") (Some "newtab") (Some "unfocus") None (Some 10) (Some 3)
            (Some 100) (Some 7)
          ∈ session_records
              (notified
                 (run Demo.env
                    [(Some Demo.tabA, Open Demo.tabA); (Some Demo.tabA, Ready Demo.tabA);
                     (Some Demo.web, Deactivate Demo.tabA)] initState))) as Hin.
  { vm_compute. constructor. }
  split; [exact Hin|].
  destruct (run_records_shape Demo.env
              [(Some Demo.tabA, Open Demo.tabA); (Some Demo.tabA, Ready Demo.tabA);
               (Some Demo.web, Deactivate Demo.tabA)]
              (mkTabData (Some "activity_stream_session") (Some "client-0")
                 (Some "1.0.0") (Some "en-US") (Some "NEW_TAB") (Some "a-uuid") None
                 (Some Demo.newtab) (Some "tab-1") (Some "newtab") (Some "unfocus") None
                 (Some 10) (Some 3) (Some 100) (Some 7)) Hin)
    as (_ & Hti & Hsi & _).
  split; [exact Hsi | exact Hti].
Defined.

(** X19. Session ids are not reused. If the generator of ids gives
    different strings at the draws made during a run, then no two records
    of completed sessions notified in that run have the same session id. *)
Theorem run_session_ids_distinct (e : Env) (evs : list (option Tab * Event)) :
  (∀ i j : nat,
     (i < uuidCalls (run e evs initState))%nat →
     (j < uuidCalls (run e evs initState))%nat →
     uuid e i = uuid e j → i = j) →
  NoDup (session_id <$> session_records (notified (run e evs initState))).
Proof.
  intros Hinj.
  destruct (run_tracker_ok e evs initState (initState_tracker_ok _))
    as (_ & _ & _ & idxs & -> & Hnd & Hlt & _).
  rewrite Forall_forall in Hlt.
  apply NoDup_fmap_2_strong; [|done].
  intros i j Hi Hj [= Hij]. apply Hinj; auto.
Qed.

Lemma run_session_ids_distinct_witness :
  (∀ i j : nat,
     (i < uuidCalls
            (run Demo.env
               [(Some Demo.tabA, Open Demo.tabA); (Some Demo.tabA, Ready Demo.tabA);
                (Some Demo.tabA, Ready Demo.tabA)] initState))%nat →
     (j < uuidCalls
            (run Demo.env
               [(Some Demo.tabA, Open Demo.tabA); (Some Demo.tabA, Ready Demo.tabA);
                (Some Demo.tabA, Ready Demo.tabA)] initState))%nat →
     uuid Demo.env i = uuid Demo.env j → i = j)
  ∧ NoDup
      (session_id
         <$> session_records
               (notified
                  (run Demo.env
                     [(Some Demo.tabA, Open Demo.tabA); (Some Demo.tabA, Ready Demo.tabA);
                      (Some Demo.tabA, Ready Demo.tabA)] initState))).
Proof.
  assert (∀ i j : nat,
            (i < uuidCalls
                   (run Demo.env
                      [(Some Demo.tabA, Open Demo.tabA); (Some Demo.tabA, Ready Demo.tabA);
                       (Some Demo.tabA, Ready Demo.tabA)] initState))%nat →
            (j < uuidCalls
                   (run Demo.env
                      [(Some Demo.tabA, Open Demo.tabA); (Some Demo.tabA, Ready Demo.tabA);
                       (Some Demo.tabA, Ready Demo.tabA)] initState))%nat →
            uuid Demo.env i = uuid Demo.env j → i = j) as Hinj.
  { assert (uuidCalls
              (run Demo.env
                 [(Some Demo.tabA, Open Demo.tabA); (Some Demo.tabA, Ready Demo.tabA);
                  (Some Demo.tabA, Ready Demo.tabA)] initState) = 2%nat)
      as -> by (vm_compute; reflexivity).
    intros [|[|i]] [|[|j]] Hi Hj Hij; try lia; try done. }
  split; [exact Hinj|].
  exact (run_session_ids_distinct Demo.env
           [(Some Demo.tabA, Open Demo.tabA); (Some Demo.tabA, Ready Demo.tabA);
            (Some Demo.tabA, Ready Demo.tabA)] Hinj).
Defined.

(** ** One notification at most *)

Lemma emits_weaken {A : Type} (n n' : nat) (m : M A) :
  (n ≤ n')%nat → emits n m → emits n' m.
Proof. intros Hle Hm s. destruct (Hm s) as (l & Hl & Hlen). exists l. split; [done | lia]. Qed.

Lemma emits_unchanged {A : Type} (m : M A) :
  (∀ s, notified (m s).2 = notified s) → emits 0 m.
Proof. intros Hm s. exists []. by rewrite app_nil_r, Hm. Qed.

Lemma emits_bind {A B : Type} (n1 n2 : nat) (m : M A) (f : A → M B) :
  emits n1 m → (∀ a, emits n2 (f a)) → emits (n1 + n2) (m ≫= f).
Proof.
  intros Hm Hf s. destruct (Hm s) as (l1 & Hl1 & Hlen1). unfold mbind, M_bind.
  destruct (m s) as [[a|x] s1]; cbn [snd] in *.
  - destruct (Hf a s1) as (l2 & Hl2 & Hlen2). exists (l1 ++ l2).
    rewrite Hl2, Hl1, length_app, app_assoc. split; [done | lia].
  - exists l1. split; [done | lia].
Qed.

Lemma emits_ret {A : Type} (a : A) : emits 0 (mret a : M A).
Proof. by apply emits_unchanged. Qed.

Lemma emits_throw {A : Type} (x : Exn) : emits 0 (throw x : M A).
Proof. by apply emits_unchanged. Qed.

Lemma emits_getState : emits 0 getState.
Proof. by apply emits_unchanged. Qed.

Lemma emits_getTabData : emits 0 getTabData.
Proof. by apply emits_unchanged. Qed.

Lemma emits_modifyTabData (f : TabData → TabData) : emits 0 (modifyTabData f).
Proof. by apply emits_unchanged. Qed.

Lemma emits_setOpenTabs (ots : gmap string OpenTab) : emits 0 (setOpenTabs ots).
Proof. by apply emits_unchanged. Qed.

Lemma emits_now (e : Env) : emits 0 (now e).
Proof. by apply emits_unchanged. Qed.

Lemma emits_new_uuid (e : Env) : emits 0 (new_uuid e).
Proof. by apply emits_unchanged. Qed.

Lemma emits_activeTab_of (e : Env) : emits 0 (activeTab_of e).
Proof. apply emits_unchanged. intros s. unfold activeTab_of. by destruct (activeTab e). Qed.

Lemma emits_openTab_of (i : string) : emits 0 (openTab_of i).
Proof.
  apply emits_unchanged. intros s. unfold openTab_of. munfold. cbn.
  by destruct (openTabs s !! i).
Qed.

Lemma emits_notifyObservers (t : string) (d : Json) : emits 1 (notifyObservers t d).
Proof. intros s. by exists [mkNotification t d]. Qed.

Create HintDb emits discriminated.

#[local] Hint Resolve emits_ret emits_throw emits_getState emits_getTabData
  emits_modifyTabData emits_setOpenTabs emits_now emits_new_uuid emits_activeTab_of
  emits_openTab_of emits_notifyObservers : emits.

(** Splits a goal [emits 0 m] along the binds and the tests of [m]. *)
Ltac emits_none :=
  repeat match goal with
    | |- emits 0 (_ ≫= _) => apply (emits_bind 0 0); [|intros ?]
    | |- emits _ (if ?b then _ else _) => destruct b
    | |- emits _ (match ?x with _ => _ end) => destruct x
    end;
  auto with emits.

(** A step that notifies nothing, then a rest that notifies once at most;
    or the reverse. *)
Ltac emits_then := apply (emits_bind 0 1); [auto with emits | intros ?].
Ltac emits_first := apply (emits_bind 1 0); [|intros ?; emits_none].
Ltac emits_less := apply (emits_weaken 0 1); [lia | emits_none].

Lemma emits_navigateAwayFromPage (e : Env) (tab : Tab) (reason : string) :
  emits 1 (navigateAwayFromPage e tab reason).
Proof.
  intros s. destruct (openTabs s !! id tab) as [ot|] eqn:Hot.
  - destruct (navigateAwayFromPage_spec e tab reason s ot Hot) as (r & nc & uc & -> & _).
    by exists [session_note r].
  - rewrite navigateAwayFromPage_unregistered by done. exists [].
    split; [by rewrite app_nil_r | cbn; lia].
Qed.

Lemma emits__initTabSession (e : Env) (tab : Tab) (loadReason : string) :
  emits 0 (_initTabSession e tab loadReason).
Proof. unfold _initTabSession. emits_none. Qed.

Lemma emits_logActivate (e : Env) (tab : Tab) : emits 0 (logActivate e tab).
Proof.
  pose proof (emits__initTabSession e tab). unfold logActivate. emits_none.
Qed.

Lemma emits_onOpen (e : Env) (tab : Tab) : emits 0 (onOpen e tab).
Proof. unfold onOpen. emits_none. Qed.

Lemma emits_logReady_replaced (e : Env) (tab : Tab) : emits 1 (logReady_replaced e tab).
Proof.
  unfold logReady_replaced. emits_then.
  repeat match goal with
    | |- emits _ (if ?b then _ else _) => destruct b
    | |- emits _ (match ?x with _ => _ end) => destruct x
    end;
    first [apply emits_navigateAwayFromPage | emits_less].
Qed.

Lemma emits_logReady (e : Env) (tab : Tab) : emits 1 (logReady e tab).
Proof.
  pose proof (emits_logReady_replaced e tab) as Hrep.
  pose proof (emits_logActivate e tab) as Hact.
  unfold logReady. destruct (isActivityStreamsURL e (tab_url tab)); [|done].
  emits_then. destruct (bool_decide _); [|done].
  emits_then. emits_first.
  destruct (negb _); [emits_less|]. destruct (negb _); [|emits_less].
  emits_first. apply emits_navigateAwayFromPage.
Qed.

(** With no URL and no tab id on the session state, [logReady] notifies
    nothing. *)
Lemma logReady_idle_quiet (e : Env) (tab : Tab) (s : State) :
  url (tabData s) = None →
  tab_id (tabData s) = None →
  notified (logReady e tab s).2 = notified s.
Proof.
  intros Hurl Hti.
  assert (notified (logReady_replaced e tab s).2 = notified s) as Hrep.
  { unfold logReady_replaced. munfold. cbn. by rewrite Hti. }
  unfold logReady. destruct (isActivityStreamsURL e (tab_url tab)); [|done].
  unfold activeTab_of. destruct (activeTab e) as [a|]; [|done].
  unfold mbind at 1, M_bind at 1, mret at 1, M_ret at 1.
  destruct (bool_decide _); [|done].
  unfold mbind at 1, M_bind at 1, getTabData at 1. rewrite Hurl. cbn [truthy_str negb].
  assert (emits 0 (modifyTabData (set_load_reason (Some "newtab"));; logActivate e tab))
    as Hq.
  { pose proof (emits_logActivate e tab). emits_none. }
  destruct (Hq s) as (l & -> & Hlen). destruct l; [by rewrite app_nil_r|cbn in Hlen; lia].
Qed.

(** X20. One notification at most. Whatever the event and the state, the
    handler that the host calls adds at most one notification to those
    made before, and leaves those as they were. *)
Theorem dispatch_notifies_once (e : Env) (ev : Event) (s : State) :
  ∃ l : list Notification,
    notified (dispatch e ev s).2 = notified s ++ l ∧ (length l ≤ 1)%nat.
Proof.
  revert s. change (emits 1 (dispatch e ev)).
  pose proof (emits_logReady e) as Hready.
  destruct ev; cbn [dispatch].
  - apply (emits_weaken 0 1); [lia | apply emits_onOpen].
  - apply Hready.
  - unfold logPageShow. emits_then. destruct (_ && _); [apply Hready | emits_less].
  - apply (emits_weaken 0 1); [lia | apply emits_logActivate].
  - unfold logDeactivate. destruct (activeTab e); [|emits_less].
    destruct (isActivityStreamsURL e (tab_url tab)); [|emits_less].
    emits_first. apply emits_navigateAwayFromPage.
  - unfold logClose. destruct (isActivityStreamsURL e (tab_url tab)); [|emits_less].
    emits_then. destruct (negb _); [emits_less|].
    emits_first. apply emits_navigateAwayFromPage.
  - unfold handleUserEvent. emits_then. emits_then. emits_then. emits_first.
    auto with emits.
  - unfold handleUndesiredEvent. emits_then. emits_then. emits_then. auto with emits.
  - unfold handlePerformanceEvent. destruct (activeTab e); [|emits_less].
    emits_then. auto with emits.
  - unfold handleRouteChange. destruct (negb isFirstLoad); [|emits_less].
    intros s. destruct (openTabs s !! id tab) as [ot|] eqn:Hot.
    + destruct (navigateAwayFromPage_spec e tab "route_change" s ot Hot)
        as (r & nc & uc & Hflush & _).
      rewrite (bind_Return _ _ _ _ _ Hflush).
      exists [session_note r]. split; [|done].
      by rewrite logReady_idle_quiet.
    + rewrite (bind_Throw _ _ _ _ _ (navigateAwayFromPage_unregistered e tab _ s Hot)).
      exists []. split; [by rewrite app_nil_r | cbn; lia].
Qed.

(** ** The rows of the other tabs *)

Section OtherRows.
Context (k : string) (v : option OpenTab).

Lemma keeps_row_insert (i : string) (row : OpenTab) :
  i ≠ k →
  keeps (λ s, openTabs s !! k = v)
    (getState ≫= λ s, setOpenTabs (<[i := row]> (openTabs s))).
Proof. intros Hne s Hs. munfold. cbn. by rewrite lookup_insert_ne. Qed.

Lemma keeps_row_delete (i : string) :
  i ≠ k →
  keeps (λ s, openTabs s !! k = v)
    (getState ≫= λ s, setOpenTabs (delete i (openTabs s))).
Proof. intros Hne s Hs. munfold. cbn. by rewrite lookup_delete_ne. Qed.

Lemma keeps_row_modifyTabData (f : TabData → TabData) :
  keeps (λ s, openTabs s !! k = v) (modifyTabData f).
Proof. by intros s Hs. Qed.

Lemma keeps_row_notifyObservers (t : string) (d : Json) :
  keeps (λ s, openTabs s !! k = v) (notifyObservers t d).
Proof. by intros s Hs. Qed.

Lemma keeps_row_navigateAwayFromPage (e : Env) (tab : Tab) (reason : string) :
  keeps (λ s, openTabs s !! k = v) (navigateAwayFromPage e tab reason).
Proof.
  intros s Hs. destruct (openTabs s !! id tab) as [ot|] eqn:Hot.
  - by destruct (navigateAwayFromPage_spec e tab reason s ot Hot)
      as (r & nc & uc & -> & _).
  - by rewrite navigateAwayFromPage_unregistered.
Qed.

Lemma keeps_row_logActivate (e : Env) (tab : Tab) :
  id tab ≠ k →
  keeps (λ s, openTabs s !! k = v) (logActivate e tab).
Proof.
  intros Hne s Hs. unfold logActivate.
  destruct (isActivityStreamsURL e (tab_url tab)); [|done].
  unfold mbind at 1, M_bind at 1, getTabData at 1.
  rewrite (bind_Return _ _ _ _ _ (_initTabSession_spec e tab _ s)).
  munfold. cbn. destruct (openTabs s !! id tab) as [ot|]; cbn; [|done].
  rewrite lookup_insert_eq. cbn. by rewrite !lookup_insert_ne.
Qed.

Lemma keeps_row_onOpen (e : Env) (tab : Tab) :
  id tab ≠ k →
  keeps (λ s, openTabs s !! k = v) (onOpen e tab).
Proof. intros Hne s Hs. rewrite onOpen_spec. cbn. by rewrite lookup_insert_ne. Qed.
End OtherRows.

(** Splits a goal about the row of another tab along the binds and the
    tests, the updates of the table first. *)
Ltac keeps_row :=
  repeat match goal with
    | |- keeps _ (getState ≫= λ _, setOpenTabs (<[_ := _]> _)) =>
        by apply keeps_row_insert
    | |- keeps _ (getState ≫= λ _, setOpenTabs (delete _ _)) =>
        by apply keeps_row_delete
    | |- keeps _ (_ ≫= _) => apply keeps_bind; [|intros ?]
    | |- keeps _ (if ?b then _ else _) => destruct b
    | |- keeps _ (match ?x with _ => _ end) => destruct x
    end;
  auto using keeps_row_modifyTabData, keeps_row_notifyObservers,
    keeps_row_navigateAwayFromPage, keeps_row_logActivate, keeps_row_onOpen with keeps.

Lemma keeps_row_logReady (e : Env) (tab : Tab) (k : string) (v : option OpenTab) :
  id tab ≠ k →
  keeps (λ s, openTabs s !! k = v) (logReady e tab).
Proof. intros Hne. unfold logReady, logReady_replaced. keeps_row. Qed.

(** X21. The rows of the other tabs. A handler called for one tab never
    creates, changes or removes the row of another tab, and the handlers
    of the user, undesired and performance events never touch the table
    of open tabs: whatever the outcome, the row under any other key is
    what it was. *)
Theorem dispatch_other_rows (e : Env) (ev : Event) (s : State) (k : string) :
  match ev with
  | Open tab | Ready tab | PageShow tab | Activate tab | Deactivate tab | Close tab
  | RouteChange tab _ => id tab ≠ k
  | UserEvent _ | UndesiredEvent _ | PerformanceEvent _ _ _ => True
  end →
  openTabs (dispatch e ev s).2 !! k = openTabs s !! k.
Proof.
  intros Hev.
  assert (keeps (λ s', openTabs s' !! k = openTabs s !! k) (dispatch e ev)) as Hkeeps.
  { destruct ev; cbn [dispatch].
    - by apply keeps_row_onOpen.
    - by apply keeps_row_logReady.
    - pose proof (keeps_row_logReady e tab k (openTabs s !! k) Hev).
      unfold logPageShow. keeps_row.
    - by apply keeps_row_logActivate.
    - unfold logDeactivate. keeps_row.
    - unfold logClose. keeps_row.
    - unfold handleUserEvent. keeps_row.
    - unfold handleUndesiredEvent. keeps_row.
    - unfold handlePerformanceEvent. keeps_row.
    - pose proof (keeps_row_logReady e tab k (openTabs s !! k) Hev).
      unfold handleRouteChange. keeps_row. }
  by apply Hkeeps.
Qed.

Lemma dispatch_other_rows_witness :
  id Demo.tabB ≠ "tab-1"
  ∧ openTabs (dispatch (Demo.env_on Demo.tabB) (Close Demo.tabB) Demo.loaded).2 !! "tab-1"
    = openTabs Demo.loaded !! "tab-1".
Proof.
  assert (id Demo.tabB ≠ "tab-1") as Hne by (vm_compute; discriminate).
  split; [exact Hne|].
  exact (dispatch_other_rows (Demo.env_on Demo.tabB) (Close Demo.tabB) Demo.loaded
           "tab-1" Hne).
Defined.

(** ** Event ids *)

(** X22. [generateEvent] returns the event data with a newly generated
    [event_id] in place of any the caller gave, every other property as it
    was; it notifies nothing and leaves the session state and the table of
    open tabs alone. Two events generated one after the other have
    different ids when the generator's two draws differ. *)
Theorem generateEvent_fresh (e : Env) (eventData1 eventData2 : Obj) (s : State) :
  uuid e (uuidCalls s) ≠ uuid e (S (uuidCalls s)) →
  ∃ (ev1 ev2 : Obj) (s1 s2 : State),
    generateEvent e eventData1 s = (Return ev1, s1)
    ∧ generateEvent e eventData2 s1 = (Return ev2, s2)
    ∧ ev1 !! "event_id" = Some (JStr (uuid e (uuidCalls s)))
    ∧ ev1 !! "event_id" ≠ ev2 !! "event_id"
    ∧ (∀ k : string, k ≠ "event_id" → ev1 !! k = eventData1 !! k)
    ∧ (∀ k : string, k ≠ "event_id" → ev2 !! k = eventData2 !! k)
    ∧ tabData s2 = tabData s
    ∧ openTabs s2 = openTabs s
    ∧ notified s2 = notified s.
Proof.
  intros Hne. unfold generateEvent. munfold. cbn. do 4 eexists.
  split; [reflexivity|]. split; [reflexivity|]. cbn.
  rewrite !lookup_insert_eq. split_and!; try done.
  - congruence.
  - intros k Hk. by rewrite lookup_insert_ne.
  - intros k Hk. by rewrite lookup_insert_ne.
Qed.

Lemma generateEvent_fresh_witness :
  uuid Demo.env (uuidCalls Demo.loaded) ≠ uuid Demo.env (S (uuidCalls Demo.loaded))
  ∧ ∃ (ev1 ev2 : Obj) (s1 s2 : State),
      generateEvent Demo.env {[ "event_id" := JStr "given" ]} Demo.loaded
      = (Return ev1, s1)
      ∧ generateEvent Demo.env Demo.click s1 = (Return ev2, s2)
      ∧ ev1 !! "event_id" = Some (JStr "b-uuid")
      ∧ ev1 !! "event_id" ≠ ev2 !! "event_id".
Proof.
  assert (uuid Demo.env (uuidCalls Demo.loaded)
          ≠ uuid Demo.env (S (uuidCalls Demo.loaded))) as Hne
    by (vm_compute; discriminate).
  split; [exact Hne|].
  destruct (generateEvent_fresh Demo.env {[ "event_id" := JStr "given" ]} Demo.click
              Demo.loaded Hne)
    as (ev1 & ev2 & s1 & s2 & H1 & H2 & Hid & Hdiff & _).
  exists ev1, ev2, s1, s2. split_and!; [exact H1 | exact H2 | | exact Hdiff].
  rewrite Hid. vm_compute. reflexivity.
Defined.
